(** * investApp frontend: session, gateway client and mutations

    A shallow embedding of the client-side authentication core of the
    investApp frontend:

    - [lib/api.ts]: the axios instance [api], its request and response
      interceptors, and the four calls of [authApi];
    - [hooks/use-auth.ts]: the [useAuth] hook with its four mutations,
      [logout] and [isAuthenticated];
    - the error line of the login page.

    JavaScript values are a small JSON-like datatype, the browser (the
    [localStorage] of the window, the navigation events, the console) and
    the hook's React state are one explicit state record, and code that
    can throw or reject runs in a state-and-completion monad.  axios and
    react-query are libraries: what they do around the repository's
    callbacks is modelled next to each use, with the library function
    named. *)

From Stdlib Require Import ZArith Ascii String List.
From stdpp Require Import gmap strings pretty list.

Local Open Scope string_scope.

(** ** JavaScript values *)

(** JSON-like values.  Numbers are the integers: the only numbers this
    code handles are HTTP status codes, ids, [skip] and [limit]. *)
Local Unset Elimination Schemes.
Inductive Js : Type :=
| JUndefined
| JNull
| JBool (b : bool)
| JNum (n : Z)
| JStr (s : string)
| JArr (items : list Js)
| JObj (fields : list (string * Js)).
Local Set Elimination Schemes.

(** Own-property lookup in an object literal: the first binding of [k]. *)
Fixpoint assoc (k : string) (fields : list (string * Js)) : Js :=
  match fields with
  | [] => JUndefined
  | (k', v) :: rest => if String.eqb k k' then v else assoc k rest
  end.

(** [o.k] on a value that is neither [undefined] nor [null]: a missing
    property reads as [undefined]. *)
Definition prop (o : Js) (k : string) : Js :=
  match o with
  | JObj fields => assoc k fields
  | _ => JUndefined
  end.

(** JavaScript truthiness, the test behind [if (x)], [!!x] and [x || y]. *)
Definition truthy (v : Js) : bool :=
  match v with
  | JUndefined | JNull => false
  | JBool b => b
  | JNum n => negb (n =? 0)%Z
  | JStr s => negb (String.eqb s EmptyString)
  | JArr _ | JObj _ => true
  end.

(** [v === n] for a number literal [n]. *)
Definition strict_eq_num (v : Js) (n : Z) : bool :=
  match v with
  | JNum m => (m =? n)%Z
  | _ => false
  end.

(** [String(v)], as a template literal and [localStorage.setItem] apply
    it. *)
Fixpoint to_string (v : Js) : string :=
  match v with
  | JUndefined => "undefined"
  | JNull => "null"
  | JBool true => "true"
  | JBool false => "false"
  | JNum n => pretty n
  | JStr s => s
  | JArr items =>
      String.concat ","
        (map (fun x => match x with
                       | JUndefined | JNull => EmptyString
                       | _ => to_string x
                       end) items)
  | JObj _ => "[object Object]"
  end.

Definition ReferenceError (name : string) : Js :=
  JObj [("name", JStr "ReferenceError");
        ("message", JStr (name ++ " is not defined"))].

Definition TypeError (k : string) : Js :=
  JObj [("name", JStr "TypeError");
        ("message", JStr ("Cannot read properties of undefined (reading '" ++ k ++ "')"))].

(** ** State *)

(** A navigation event: an assignment to [window.location.href] or a
    [router.push] of the Next.js router. *)
Inductive Nav : Type :=
| LocationHref (url : string)
| RouterPush (url : string).

(** The path of a URL: what stands before the query string. *)
Fixpoint path_of (url : string) : string :=
  match url with
  | EmptyString => EmptyString
  | String c rest => if Ascii.eqb c "?"%char then EmptyString else String c (path_of rest)
  end.

Definition nav_url (n : Nav) : string :=
  match n with
  | LocationHref url => url
  | RouterPush url => url
  end.

(** A navigation event leads to the login view when its path is
    [/login]. *)
Definition to_login (n : Nav) : bool := String.eqb (path_of (nav_url n)) "/login".

(** The state of a react-query mutation as its observer exposes it. *)
Inductive MutationStatus : Type := idle | pending | success | error.

Record Mutation : Type := mkMutation {
  status : MutationStatus;
  data : Js;
  error_of : Js
}.

Definition idleMutation : Mutation := mkMutation idle JUndefined JNull.
Definition pendingMutation : Mutation := mkMutation pending JUndefined JNull.
Definition successMutation (d : Js) : Mutation := mkMutation success d JNull.
Definition errorMutation (e : Js) : Mutation := mkMutation error JUndefined e.

(** Everything the code reads or writes.  [window] is [None] where
    [typeof window === 'undefined'] (server-side rendering): there is no
    [localStorage] global then; otherwise it holds the contents of
    [localStorage].  [clients] is the [useState] cell of the hook. *)
Record State : Type := mkState {
  window : option (gmap string string);
  navigation : list Nav;
  console : list Js;
  clients : Js;
  queryCache : list Js;
  loginMutation : Mutation;
  registerMutation : Mutation;
  registerClientMutation : Mutation;
  clientsMutation : Mutation
}.

Definition set_window (w : option (gmap string string)) (s : State) : State :=
  mkState w (navigation s) (console s) (clients s) (queryCache s)
    (loginMutation s) (registerMutation s) (registerClientMutation s) (clientsMutation s).

Definition push_nav (n : Nav) (s : State) : State :=
  mkState (window s) (navigation s ++ [n])%list (console s) (clients s) (queryCache s)
    (loginMutation s) (registerMutation s) (registerClientMutation s) (clientsMutation s).

Definition push_console (v : Js) (s : State) : State :=
  mkState (window s) (navigation s) (console s ++ [v])%list (clients s) (queryCache s)
    (loginMutation s) (registerMutation s) (registerClientMutation s) (clientsMutation s).

Definition set_clients (v : Js) (s : State) : State :=
  mkState (window s) (navigation s) (console s) v (queryCache s)
    (loginMutation s) (registerMutation s) (registerClientMutation s) (clientsMutation s).

Definition set_queryCache (q : list Js) (s : State) : State :=
  mkState (window s) (navigation s) (console s) (clients s) q
    (loginMutation s) (registerMutation s) (registerClientMutation s) (clientsMutation s).

(** The four instances of [useMutation] in the hook. *)
Inductive MutationKey : Type := KLogin | KRegister | KRegisterClient | KClients.

Definition get_mutation (k : MutationKey) (s : State) : Mutation :=
  match k with
  | KLogin => loginMutation s
  | KRegister => registerMutation s
  | KRegisterClient => registerClientMutation s
  | KClients => clientsMutation s
  end.

Definition set_mutation (k : MutationKey) (m : Mutation) (s : State) : State :=
  match k with
  | KLogin =>
      mkState (window s) (navigation s) (console s) (clients s) (queryCache s)
        m (registerMutation s) (registerClientMutation s) (clientsMutation s)
  | KRegister =>
      mkState (window s) (navigation s) (console s) (clients s) (queryCache s)
        (loginMutation s) m (registerClientMutation s) (clientsMutation s)
  | KRegisterClient =>
      mkState (window s) (navigation s) (console s) (clients s) (queryCache s)
        (loginMutation s) (registerMutation s) m (clientsMutation s)
  | KClients =>
      mkState (window s) (navigation s) (console s) (clients s) (queryCache s)
        (loginMutation s) (registerMutation s) (registerClientMutation s) m
  end.

(** ** The monad of JavaScript code *)

(** How a piece of code ends: with a value, or by throwing.  For an
    [async] function and for a promise chain, [Normal] is fulfilment and
    [Throw] is rejection. *)
Inductive Completion (A : Type) : Type :=
| Normal (a : A)
| Throw (e : Js).
Arguments Normal {A} a.
Arguments Throw {A} e.

Definition JS (A : Type) : Type := State -> State * Completion A.

Definition ret {A} (a : A) : JS A := fun s => (s, Normal a).

Definition throw {A} (e : Js) : JS A := fun s => (s, Throw e).

Definition bind {A B} (m : JS A) (k : A -> JS B) : JS B :=
  fun s =>
    match m s with
    | (s', Normal a) => k a s'
    | (s', Throw e) => (s', Throw e)
    end.

(** [p.then(onFulfilled, onRejected)]. *)
Definition then_ {A B} (p : JS A) (onFulfilled : A -> JS B) (onRejected : Js -> JS B) : JS B :=
  fun s =>
    match p s with
    | (s', Normal a) => onFulfilled a s'
    | (s', Throw e) => onRejected e s'
    end.

Notation "x <- m ;; k" := (bind m (fun x => k))
  (at level 100, m at next level, right associativity).
Notation "m ;;; k" := (bind m (fun _ => k))
  (at level 100, right associativity).

(** [o.k]: a [TypeError] on [undefined] and [null]. *)
Definition member (o : Js) (k : string) : JS Js :=
  match o with
  | JUndefined | JNull => throw (TypeError k)
  | _ => ret (prop o k)
  end.

(** [o?.k]. *)
Definition opt_member (o : Js) (k : string) : Js :=
  match o with
  | JUndefined | JNull => JUndefined
  | _ => prop o k
  end.

(** ** Browser globals *)

Definition typeof_window : JS string :=
  fun s => (s, Normal (match window s with Some _ => "object" | None => "undefined" end)).

(** [localStorage.getItem(k)]: the stored string, or [null]. *)
Definition getItem (k : string) : JS Js :=
  fun s =>
    match window s with
    | None => (s, Throw (ReferenceError "localStorage"))
    | Some store =>
        (s, Normal (match store !! k with Some v => JStr v | None => JNull end))
    end.

(** [localStorage.setItem(k, v)]: stores [String(v)]. *)
Definition setItem (k : string) (v : Js) : JS unit :=
  fun s =>
    match window s with
    | None => (s, Throw (ReferenceError "localStorage"))
    | Some store => (set_window (Some (<[k := to_string v]> store)) s, Normal tt)
    end.

(** [localStorage.removeItem(k)]. *)
Definition removeItem (k : string) : JS unit :=
  fun s =>
    match window s with
    | None => (s, Throw (ReferenceError "localStorage"))
    | Some store => (set_window (Some (delete k store)) s, Normal tt)
    end.

(** [window.location.href = url].  Only the navigation event is kept. *)
Definition location_href_set (url : string) : JS unit :=
  fun s =>
    match window s with
    | None => (s, Throw (ReferenceError "window"))
    | Some _ => (push_nav (LocationHref url) s, Normal tt)
    end.

(** [router.push(url)]. *)
Definition router_push (url : string) : JS unit :=
  fun s => (push_nav (RouterPush url) s, Normal tt).

(** [console.log(v)]. *)
Definition console_log (v : Js) : JS unit :=
  fun s => (push_console v s, Normal tt).

(** ** lib/api.ts: the gateway client *)

(** An axios request config, with the fields this code sets or axios
    reads to build the request. *)
Record Request : Type := mkRequest {
  method : string;
  baseURL : string;
  url : string;
  headers : gmap string string;
  params : Js;
  req_data : Js
}.

Definition set_header (k v : string) (config : Request) : Request :=
  mkRequest (method config) (baseURL config) (url config)
    (<[k := v]> (headers config)) (params config) (req_data config).

(** The query string axios builds: the entries of [config.params], and
    nothing when [params] is not an object. *)
Definition query (config : Request) : list (string * Js) :=
  match params config with
  | JObj fields => fields
  | _ => []
  end.

(** What the remote API answers to a request; [NetworkError] when no
    response arrives.  The API is an external service: the operations
    below take it as an argument. *)
Inductive Reply : Type :=
| HttpReply (code : Z) (body : Js)
| NetworkError.

Definition Server : Type := Request -> Reply.

Definition API_BASE_URL : string := "http://localhost:8000".

(** The defaults of [axios.create]. *)
Definition default_headers : gmap string string :=
  {[ "Content-Type" := "application/json" ]}.

(** The response object of axios, with its [data] and [status]. *)
Definition response_object (code : Z) (body : Js) : Js :=
  JObj [("data", body); ("status", JNum code)].

(** The error axios rejects with: an [AxiosError], whose [response] is
    the response object when one arrived. *)
Definition AxiosError (message : string) (response : Js) : Js :=
  JObj [("name", JStr "AxiosError"); ("message", JStr message); ("response", response)].

(** The error axios builds for a reply that fails [validateStatus]. *)
Definition status_error (code : Z) (body : Js) : Js :=
  AxiosError ("Request failed with status code " ++ pretty code) (response_object code body).

(** The default [validateStatus] of axios. *)
Definition validateStatus (code : Z) : bool := ((200 <=? code) && (code <? 300))%Z.

(** [dispatchRequest] followed by [settle]: the request goes out and the
    promise is fulfilled on a 2xx status, rejected otherwise. *)
Definition dispatchRequest (server : Server) (config : Request) : JS Js :=
  match server config with
  | HttpReply code body =>
      if validateStatus code then ret (response_object code body)
      else throw (status_error code body)
  | NetworkError => throw (AxiosError "Network Error" JUndefined)
  end.

(** [api.interceptors.request.use((config) => ...)] *)
Definition request_interceptor (config : Request) : JS Request :=
  token <- getItem "auth_token" ;;
  if truthy token
  then ret (set_header "Authorization" ("Bearer " ++ to_string token) config)
  else ret config.

(** [api.interceptors.response.use((response) => response, ...)] *)
Definition response_onFulfilled (response : Js) : JS Js := ret response.

(** [api.interceptors.response.use(..., (error) => ...)] *)
Definition response_onRejected (err : Js) : JS Js :=
  response <- member err "response" ;;
  (if strict_eq_num (opt_member response "status") 401
   then removeItem "auth_token" ;;; location_href_set "/login"
   else ret tt) ;;;
  throw err.

(** [Axios.prototype.request]: one promise chain through the request
    interceptor, the dispatch and the response interceptor; a rejection
    anywhere before reaches the response interceptor's second handler. *)
Definition api_request (server : Server) (config : Request) : JS Js :=
  then_ (config' <- request_interceptor config ;; dispatchRequest server config')
        response_onFulfilled response_onRejected.

(** The config [api.post(url, data)] hands to [request], merged with the
    defaults of the instance. *)
Definition post_config (url : string) (data : Js) : Request :=
  mkRequest "post" API_BASE_URL url default_headers JUndefined data.

(** The config [api.get(url, config)] hands to [request]: the second
    argument is a request config.  Of it axios reads [params] for the
    query string and [data]; the callers here pass no other key that
    axios knows. *)
Definition get_config (url : string) (config : Js) : Request :=
  mkRequest "get" API_BASE_URL url default_headers (prop config "params") (prop config "data").

Definition api_post (server : Server) (url : string) (data : Js) : JS Js :=
  api_request server (post_config url data).

Definition api_get (server : Server) (url : string) (config : Js) : JS Js :=
  api_request server (get_config url config).

(** The request interfaces of [types/api.ts], as the objects they
    describe. *)
Definition LoginRequest (email password : string) : Js :=
  JObj [("email", JStr email); ("password", JStr password)].

Definition RegisterRequest (email password : string) (is_active : bool) : Js :=
  JObj [("email", JStr email); ("password", JStr password); ("is_active", JBool is_active)].

Definition RegisterClientRequest (name email : string) (is_active : bool) : Js :=
  JObj [("name", JStr name); ("email", JStr email); ("is_active", JBool is_active)].

Definition GetClientsRequest (skip limit : Z) : Js :=
  JObj [("skip", JNum skip); ("limit", JNum limit)].

Module authApi.

Definition login (server : Server) (credentials : Js) : JS Js :=
  response <- api_post server "/auth/login" credentials ;;
  member response "data".

Definition register (server : Server) (userData : Js) : JS Js :=
  response <- api_post server "/auth/register" userData ;;
  member response "data".

Definition registerClient (server : Server) (clientData : Js) : JS Js :=
  console_log clientData ;;;
  response <- api_post server "/clients" clientData ;;
  member response "data".

Definition getClients (server : Server) (clientData : Js) : JS Js :=
  response <- api_get server "/clients" clientData ;;
  member response "data".

End authApi.

(** ** hooks/use-auth.ts: the hook *)

(** [mutation.mutate(variables)] of react-query, run to completion: the
    state goes to [pending], [mutationFn] is awaited, on fulfilment the
    [onSuccess] option runs and the state goes to [success]; a rejection
    of [mutationFn], or a throw in [onSuccess], ends in [error] with what
    was thrown.  [mutate] itself returns nothing and never throws. *)
Definition mutate (k : MutationKey) (mutationFn : Js -> JS Js)
    (onSuccess : Js -> JS unit) (variables : Js) (s : State) : State :=
  match mutationFn variables (set_mutation k pendingMutation s) with
  | (s1, Normal d) =>
      match onSuccess d s1 with
      | (s2, Normal _) => set_mutation k (successMutation d) s2
      | (s2, Throw e) => set_mutation k (errorMutation e) s2
      end
  | (s1, Throw e) => set_mutation k (errorMutation e) s1
  end.

(** [setClients(v)] with a value that is not a function. *)
Definition setClients (v : Js) : JS unit :=
  fun s => (set_clients v s, Normal tt).

(** [queryClient.clear()]: empties the query cache. *)
Definition queryClient_clear : JS unit :=
  fun s => (set_queryCache [] s, Normal tt).

Module useAuth.

Definition loginMutation_onSuccess (data : Js) : JS unit :=
  access_token <- member data "access_token" ;;
  setItem "auth_token" access_token ;;;
  router_push "/clients".

Definition registerMutation_onSuccess (data : Js) : JS unit :=
  router_push "/login?message=Registration successful".

Definition registerClientMutation_onSuccess (data : Js) : JS unit :=
  router_push "/clients?message=Client registration successful".

Definition clientsMutation_onSuccess (data : Js) : JS unit :=
  setClients data.

(** [login: loginMutation.mutate] *)
Definition login (server : Server) : Js -> State -> State :=
  mutate KLogin (authApi.login server) loginMutation_onSuccess.

(** [register: registerMutation.mutate] *)
Definition register (server : Server) : Js -> State -> State :=
  mutate KRegister (authApi.register server) registerMutation_onSuccess.

(** [registerClient: registerClientMutation.mutate] *)
Definition registerClient (server : Server) : Js -> State -> State :=
  mutate KRegisterClient (authApi.registerClient server) registerClientMutation_onSuccess.

(** [clientsMutation: clientsMutation.mutate] *)
Definition clientsMutation_mutate (server : Server) : Js -> State -> State :=
  mutate KClients (authApi.getClients server) clientsMutation_onSuccess.

Definition logout : JS unit :=
  removeItem "auth_token" ;;;
  queryClient_clear ;;;
  setClients (JArr []) ;;;
  router_push "/login".

Definition isAuthenticated : JS bool :=
  t <- typeof_window ;;
  if String.eqb t "undefined" then ret false
  else token <- getItem "auth_token" ;; ret (truthy token).

End useAuth.

(** ** app/login/page.tsx: the error line *)

(** [{error && (... {error.detail || 'Erro ao fazer login'} ...)}]: the
    text of the alert, when one is rendered. *)
Definition login_error_text (err : Js) : option string :=
  if truthy err
  then Some (if truthy (prop err "detail") then to_string (prop err "detail")
             else "Erro ao fazer login")
  else None.

(** ** Session store *)

(** The persisted token: the value under the fixed key, when the window
    exists and holds one. *)
Definition stored_token (s : State) : option string :=
  match window s with
  | Some store => store !! "auth_token"
  | None => None
  end.

(** The request the interceptor lets through in a browser whose storage
    is [store]. *)
Definition bearer (store : gmap string string) (config : Request) : Request :=
  match store !! "auth_token" with
  | Some t =>
      if String.eqb t EmptyString then config
      else set_header "Authorization" ("Bearer " ++ t) config
  | None => config
  end.

(** The state after the response interceptor has handled a 401. *)
Definition expire_session (store : gmap string string) (s : State) : State :=
  push_nav (LocationHref "/login") (set_window (Some (delete "auth_token" store)) s).

(** The status an error object carries: [error.response?.status]. *)
Definition error_status (err : Js) : Js := opt_member (prop err "response") "status".

(** How a call of [authApi] settles in a browser whose storage is
    [store], by the reply of the remote API: the body on a 2xx status,
    the axios error otherwise, after the session has been expired on a
    401. *)
Definition outcome (store : gmap string string) (r : Reply) (s : State) : State * Completion Js :=
  match r with
  | HttpReply code body =>
      if validateStatus code then (s, Normal body)
      else if (code =? 401)%Z then (expire_session store s, Throw (status_error code body))
      else (s, Throw (status_error code body))
  | NetworkError => (s, Throw (AxiosError "Network Error" JUndefined))
  end.

(** The elements of an array value. *)
Definition elements_of (v : Js) : list Js :=
  match v with
  | JArr items => items
  | _ => []
  end.

(** ** Runs of the application *)

(** What a user of the hook can do, each call against the answers the
    remote API gives at that moment. *)
Inductive Action : Type :=
| ALogin (server : Server) (credentials : Js)
| ARegister (server : Server) (userData : Js)
| ARegisterClient (server : Server) (clientData : Js)
| AClients (server : Server) (clientData : Js)
| ALogout.

Definition step (a : Action) (s : State) : State :=
  match a with
  | ALogin server v => useAuth.login server v s
  | ARegister server v => useAuth.register server v s
  | ARegisterClient server v => useAuth.registerClient server v s
  | AClients server v => useAuth.clientsMutation_mutate server v s
  | ALogout => fst (useAuth.logout s)
  end.

Fixpoint run (l : list Action) (s : State) : State :=
  match l with
  | [] => s
  | a :: rest => run rest (step a s)
  end.

(** The mutation an action drives, if any. *)
Definition action_key (a : Action) : option MutationKey :=
  match a with
  | ALogin _ _ => Some KLogin
  | ARegister _ _ => Some KRegister
  | ARegisterClient _ _ => Some KRegisterClient
  | AClients _ _ => Some KClients
  | ALogout => None
  end.

(** The request an action sends, after the request interceptor, from a
    browser whose storage is [store], and the remote API it goes to. *)
Definition sends (a : Action) (store : gmap string string) : option (Server * Request) :=
  match a with
  | ALogin server v => Some (server, bearer store (post_config "/auth/login" v))
  | ARegister server v => Some (server, bearer store (post_config "/auth/register" v))
  | ARegisterClient server v => Some (server, bearer store (post_config "/clients" v))
  | AClients server v => Some (server, bearer store (get_config "/clients" v))
  | ALogout => None
  end.

(** A browser session at start: empty storage, nothing fetched, every
    mutation idle. *)
Definition initial_state : State :=
  mkState (Some ∅) [] [] (JArr []) [] idleMutation idleMutation idleMutation idleMutation.

Definition reachable (s : State) : Prop := exists l, s = run l initial_state.

(** The action observed a 401: its mutation ended in [error] with an
    error whose response status is 401. *)
Definition observed_401 (a : Action) (s : State) : Prop :=
  exists k, action_key a = Some k /\
    status (get_mutation k (step a s)) = error /\
    error_status (error_of (get_mutation k (step a s))) = JNum 401.

(** The action is a login that succeeded. *)
Definition login_succeeded (a : Action) (s : State) : Prop :=
  action_key a = Some KLogin /\ status (loginMutation (step a s)) = success.

(** A run on which the session is never ended: no logout, no observed
    401, and no successful login that stores an empty token. *)
Fixpoint session_kept (l : list Action) (s : State) : Prop :=
  match l with
  | [] => True
  | a :: rest =>
      a <> ALogout /\ ~ observed_401 a s /\
      (login_succeeded a s ->
       to_string (prop (data (loginMutation (step a s))) "access_token") <> EmptyString) /\
      session_kept rest (step a s)
  end.

(** ** Stub servers and inputs of the examples *)

Definition stub (r : Reply) : Server := fun _ => r.

Definition credentials_example : Js := LoginRequest "a@b.com" "Secret1".

Definition token_reply (t : string) : Reply :=
  HttpReply 200 (JObj [("access_token", JStr t); ("token_type", JStr "bearer")]).

Definition invalid_credentials : Reply :=
  HttpReply 401 (JObj [("detail", JStr "Invalid credentials")]).

Definition client_example (id : Z) (name : string) (active : bool) : Js :=
  JObj [("id", JNum id); ("name", JStr name); ("email", JStr (name ++ "@x.com"));
        ("is_active", JBool active)].

Definition logged_in (t : string) : State :=
  mkState (Some {[ "auth_token" := t ]}) [] [] (JArr []) []
    idleMutation idleMutation idleMutation idleMutation.

Definition server_side : State :=
  mkState None [] [] (JArr []) [] idleMutation idleMutation idleMutation idleMutation.

(** ** The claims about the token, read literally *)

(** The request interceptor attaches the header whenever a token is
    stored, whatever the token. *)
Definition attaches_bearer_whenever_stored : Prop :=
  forall (s : State) (config : Request) (t : string),
    stored_token s = Some t ->
    exists config',
      request_interceptor config s = (s, Normal config') /\
      headers config' !! "Authorization" = Some ("Bearer " ++ t).

(** In every reachable state [isAuthenticated()] is true exactly when a
    token is stored, whatever the token. *)
Definition authenticated_iff_stored : Prop :=
  forall s : State,
    reachable s ->
    (useAuth.isAuthenticated s = (s, Normal true) <-> exists t, stored_token s = Some t).

(** The state after a login that the remote API answers with an empty
    access token. *)
Definition empty_token_login : State :=
  run [ALogin (stub (token_reply EmptyString)) credentials_example] initial_state.

(** ** lib/validations.ts: the password rules *)

(** The regular expressions of the schema and of the register page, over
    strings as sequences of code units (those of the model are below
    256).  A character set is [.], which matches everything but a line
    terminator, or a range such as [[a-z]]; [\d] is [[0-9]]. *)
Inductive CharSet : Type :=
| Dot
| Range (lo hi : ascii).

Definition line_terminator (c : ascii) : bool :=
  Ascii.eqb c (ascii_of_nat 10) || Ascii.eqb c (ascii_of_nat 13).

Definition in_set (cs : CharSet) (c : ascii) : bool :=
  match cs with
  | Dot => negb (line_terminator c)
  | Range lo hi =>
      (nat_of_ascii lo <=? nat_of_ascii c)%nat && (nat_of_ascii c <=? nat_of_ascii hi)%nat
  end.

(** The constructs the source uses: [^], one character of a set, [x*]
    for a set [x], sequence, and the lookahead [(?=r)]. *)
Inductive Regex : Type :=
| Bol
| One (cs : CharSet)
| Star (cs : CharSet)
| Seq (r1 r2 : Regex)
| Ahead (r : Regex).

(** [x*] then the continuation [k]: every number of repetitions is tried
    (the order of the tries does not change whether one succeeds).
    [bol] tells whether the position is the start of the input. *)
Fixpoint star (cs : CharSet) (bol : bool) (s : string) (k : bool -> string -> bool) : bool :=
  k bol s ||
  match s with
  | String c rest => in_set cs c && star cs false rest k
  | EmptyString => false
  end.

(** A backtracking matcher: [r] at the current position, then [k] on
    what is left. *)
Fixpoint matches (r : Regex) (bol : bool) (s : string) (k : bool -> string -> bool) : bool :=
  match r with
  | Bol => bol && k bol s
  | One cs =>
      match s with
      | String c rest => in_set cs c && k false rest
      | EmptyString => false
      end
  | Star cs => star cs bol s k
  | Seq r1 r2 => matches r1 bol s (fun bol' s' => matches r2 bol' s' k)
  | Ahead r1 => matches r1 bol s (fun _ _ => true) && k bol s
  end.

(** A match starting here or at a later position. *)
Fixpoint search (r : Regex) (bol : bool) (s : string) : bool :=
  matches r bol s (fun _ _ => true) ||
  match s with
  | String _ rest => search r false rest
  | EmptyString => false
  end.

(** [r.test(s)] for a regular expression without flags. *)
Definition test (r : Regex) (s : string) : bool := search r true s.

Definition lower : CharSet := Range "a" "z".
Definition upper : CharSet := Range "A" "Z".
Definition digit : CharSet := Range "0" "9".

(** [(?=.*x)] *)
Definition ahead_some (cs : CharSet) : Regex := Ahead (Seq (Star Dot) (One cs)).

(** [/^(?=.*[a-z])(?=.*[A-Z])(?=.*\d)/] *)
Definition password_regex : Regex :=
  Seq Bol (Seq (ahead_some lower) (Seq (ahead_some upper) (ahead_some digit))).

(** The [password] field of [registerSchema]: [.min(6)] and [.regex]. *)
Definition registerSchema_password (p : string) : bool :=
  (6 <=? String.length p)%nat && test password_regex p.

(** The part of a string before its first line terminator. *)
Fixpoint first_line (s : string) : string :=
  match s with
  | EmptyString => EmptyString
  | String c rest => if line_terminator c then EmptyString else String c (first_line rest)
  end.

(** Whether some character of the string is in the set. *)
Definition has (cs : CharSet) (s : string) : bool :=
  existsb (in_set cs) (list_ascii_of_string s).

Definition single_line (s : string) : bool :=
  forallb (fun c => negb (line_terminator c)) (list_ascii_of_string s).

(** ** app/register/page.tsx *)

(** The four marks of the password checklist:
    [password.length >= 6], [/(?=.*[a-z])/.test(password)],
    [/(?=.*[A-Z])/.test(password)], [/(?=.*\d)/.test(password)]. *)
Definition mark_length (p : string) : bool := (6 <=? String.length p)%nat.
Definition mark_lower (p : string) : bool := test (ahead_some lower) p.
Definition mark_upper (p : string) : bool := test (ahead_some upper) p.
Definition mark_digit (p : string) : bool := test (ahead_some digit) p.

(** The rest of an object destructuring [{ k, ...rest } = data]: the
    fields of [data] but [k], in their order. *)
Fixpoint omit (k : string) (fields : list (string * Js)) : list (string * Js) :=
  match fields with
  | [] => []
  | (k', v) :: rest => if String.eqb k k' then omit k rest else (k', v) :: omit k rest
  end.

(** [a || b] *)
Definition js_or (a b : Js) : Js := if truthy a then a else b.

Module RegisterPage.

(** [onSubmit]: the form data, an object, goes to [registerUser] without
    its [confirmPassword]. *)
Definition onSubmit (server : Server) (data : list (string * Js)) : State -> State :=
  useAuth.register server (JObj (omit "confirmPassword" data)).

(** [{registerError.detail || 'Erro ao criar conta'}], rendered when
    [registerError] is truthy. *)
Definition error_child (registerError : Js) : Js :=
  js_or (prop registerError "detail") (JStr "Erro ao criar conta").

End RegisterPage.

(** ** app/login/page.tsx *)

Module LoginPage.

Definition onSubmit (server : Server) (data : Js) : State -> State :=
  useAuth.login server data.

(** [{error.detail || 'Erro ao fazer login'}] *)
Definition error_child (err : Js) : Js :=
  js_or (prop err "detail") (JStr "Erro ao fazer login").

End LoginPage.

(** ** app/clients/register/page.tsx and app/clients/page.tsx *)

Module ClientRegisterPage.

Definition onSubmit (server : Server) (data : Js) : State -> State :=
  useAuth.registerClient server data.

(** [{registerClientError.detail || 'Error creating client'}] *)
Definition error_child (registerClientError : Js) : Js :=
  js_or (prop registerClientError "detail") (JStr "Error creating client").

End ClientRegisterPage.

(** [o.k] in code that keeps no state: a [TypeError] on [undefined] and
    [null]. *)
Definition read (o : Js) (k : string) : Completion Js :=
  match o with
  | JUndefined | JNull => Throw (TypeError k)
  | _ => Normal (prop o k)
  end.

(** [items.filter(p).length]: the callback runs on the elements in
    order, and its first throw ends the whole. *)
Fixpoint count_filter (p : Js -> Completion bool) (items : list Js) : Completion nat :=
  match items with
  | [] => Normal 0%nat
  | x :: rest =>
      match p x with
      | Throw e => Throw e
      | Normal b =>
          match count_filter p rest with
          | Throw e => Throw e
          | Normal n => Normal (if b then S n else n)
          end
      end
  end.

Module ClientsContent.

(** The effect run on mount, and [handleRetry]: [clientsMutation()],
    without an argument. *)
Definition fetch (server : Server) : State -> State :=
  useAuth.clientsMutation_mutate server JUndefined.

(** The statistics under a non-empty list of clients:
    [clients.length], [clients.filter(client => client.is_active).length]
    and [clients.filter(client => !client.is_active).length]. *)
Definition total (items : list Js) : nat := length items.

Definition active (items : list Js) : Completion nat :=
  count_filter (fun client =>
                  match read client "is_active" with
                  | Normal v => Normal (truthy v)
                  | Throw e => Throw e
                  end) items.

Definition inactive (items : list Js) : Completion nat :=
  count_filter (fun client =>
                  match read client "is_active" with
                  | Normal v => Normal (negb (truthy v))
                  | Throw e => Throw e
                  end) items.

End ClientsContent.

(** ** Actions against another remote API *)

(** The same action, sent to [server']. *)
Definition set_server (server' : Server) (a : Action) : Action :=
  match a with
  | ALogin _ v => ALogin server' v
  | ARegister _ v => ARegister server' v
  | ARegisterClient _ v => ARegisterClient server' v
  | AClients _ v => AClients server' v
  | ALogout => ALogout
  end.

(** What an action writes to the console. *)
Definition console_entry (a : Action) : list Js :=
  match a with
  | ARegisterClient _ v => [v]
  | _ => []
  end.

(** Neither [undefined] nor [null]. *)
Definition defined (v : Js) : bool :=
  match v with
  | JUndefined | JNull => false
  | _ => true
  end.

(** The state in which the call of an action runs: its mutation is
    pending, and [registerClient] has logged its input. *)
Definition before_call (a : Action) (s : State) : State :=
  match a with
  | ALogin _ _ => set_mutation KLogin pendingMutation s
  | ARegister _ _ => set_mutation KRegister pendingMutation s
  | ARegisterClient _ v => push_console v (set_mutation KRegisterClient pendingMutation s)
  | AClients _ _ => set_mutation KClients pendingMutation s
  | ALogout => s
  end.

(** What the success hook of an action does with the data. *)
Definition on_success (a : Action) (d : Js) : JS unit :=
  match a with
  | ALogin _ _ => useAuth.loginMutation_onSuccess d
  | ARegister _ _ => useAuth.registerMutation_onSuccess d
  | ARegisterClient _ _ => useAuth.registerClientMutation_onSuccess d
  | AClients _ _ => useAuth.clientsMutation_onSuccess d
  | ALogout => ret tt
  end.

(** * Properties *)

(** ** State accessors *)

Lemma window_set_mutation k m s : window (set_mutation k m s) = window s.
Proof. destruct k; reflexivity. Qed.

Lemma navigation_set_mutation k m s : navigation (set_mutation k m s) = navigation s.
Proof. destruct k; reflexivity. Qed.

Lemma clients_set_mutation k m s : clients (set_mutation k m s) = clients s.
Proof. destruct k; reflexivity. Qed.

Lemma get_set_mutation k m s : get_mutation k (set_mutation k m s) = m.
Proof. destruct k; reflexivity. Qed.

Lemma stored_token_set_mutation k m s : stored_token (set_mutation k m s) = stored_token s.
Proof. unfold stored_token. now rewrite window_set_mutation. Qed.

(** ** JavaScript values *)

Lemma strict_eq_num_true v n : strict_eq_num v n = true <-> v = JNum n.
Proof.
  destruct v; simpl; split; intros H; try discriminate.
  - apply Z.eqb_eq in H. now subst.
  - injection H as ->. apply Z.eqb_refl.
Qed.

Lemma strict_eq_num_false v n : strict_eq_num v n = false <-> v <> JNum n.
Proof.
  rewrite <- strict_eq_num_true. destruct (strict_eq_num v n); split; congruence.
Qed.

Lemma eqb_empty_false (t : string) : t <> EmptyString -> String.eqb t EmptyString = false.
Proof. intros H. now apply String.eqb_neq. Qed.

(** ** The session store *)

(** What [isAuthenticated()] computes: it never throws, leaves the state
    alone, and answers whether a non-empty token is stored. *)
Lemma isAuthenticated_run s :
  useAuth.isAuthenticated s =
  (s, Normal (match stored_token s with
              | Some t => negb (String.eqb t EmptyString)
              | None => false
              end)).
Proof.
  unfold useAuth.isAuthenticated, bind, typeof_window, getItem, stored_token, ret.
  destruct (window s) as [store|] eqn:Hw; simpl; [|reflexivity].
  rewrite Hw. destruct (store !! "auth_token"); reflexivity.
Qed.

Lemma isAuthenticated_true s :
  useAuth.isAuthenticated s = (s, Normal true) <->
  exists t, stored_token s = Some t /\ t <> EmptyString.
Proof.
  rewrite isAuthenticated_run. split.
  - intros H. destruct (stored_token s) as [t|]; [|discriminate].
    exists t. split; [reflexivity|]. intros ->. discriminate.
  - intros (t & -> & Hne). now rewrite (eqb_empty_false t Hne).
Qed.

Lemma isAuthenticated_no_token s :
  stored_token s = None -> useAuth.isAuthenticated s = (s, Normal false).
Proof. intros H. now rewrite isAuthenticated_run, H. Qed.

Lemma stored_token_expire store s : stored_token (expire_session store s) = None.
Proof. unfold stored_token, expire_session; simpl. apply lookup_delete_eq. Qed.

(** ** The interceptors *)

Lemma request_interceptor_browser store config s :
  window s = Some store ->
  request_interceptor config s = (s, Normal (bearer store config)).
Proof.
  intros Hw. unfold request_interceptor, bind, getItem, bearer. rewrite Hw.
  destruct (store !! "auth_token") as [t|]; simpl; [|reflexivity].
  destruct (String.eqb t EmptyString); reflexivity.
Qed.

Lemma request_interceptor_server_side config s :
  window s = None ->
  request_interceptor config s = (s, Throw (ReferenceError "localStorage")).
Proof.
  intros Hw. unfold request_interceptor, bind, getItem. now rewrite Hw.
Qed.

Lemma response_onRejected_401 store fields s :
  window s = Some store ->
  error_status (JObj fields) = JNum 401 ->
  response_onRejected (JObj fields) s = (expire_session store s, Throw (JObj fields)).
Proof.
  intros Hw Hst. unfold error_status in Hst. simpl in Hst.
  unfold response_onRejected, member, bind, ret, throw. simpl.
  rewrite Hst. simpl.
  unfold removeItem, location_href_set. rewrite Hw. reflexivity.
Qed.

Lemma response_onRejected_other fields s :
  error_status (JObj fields) <> JNum 401 ->
  response_onRejected (JObj fields) s = (s, Throw (JObj fields)).
Proof.
  intros Hst. apply strict_eq_num_false in Hst. unfold error_status in Hst. simpl in Hst.
  unfold response_onRejected, member, bind, ret, throw. simpl.
  now rewrite Hst.
Qed.

Lemma error_status_status_error code body : error_status (status_error code body) = JNum code.
Proof. reflexivity. Qed.

(** The whole chain of [api.request] in a browser, by the reply of the
    remote API to the request the interceptor let through. *)
Lemma api_request_browser server config store s :
  window s = Some store ->
  api_request server config s =
  match server (bearer store config) with
  | HttpReply code body =>
      if validateStatus code then (s, Normal (response_object code body))
      else if (code =? 401)%Z then (expire_session store s, Throw (status_error code body))
      else (s, Throw (status_error code body))
  | NetworkError => (s, Throw (AxiosError "Network Error" JUndefined))
  end.
Proof.
  intros Hw. unfold api_request, then_, bind.
  rewrite (request_interceptor_browser store config s Hw).
  unfold dispatchRequest. destruct (server (bearer store config)) as [code body|].
  - destruct (validateStatus code); [reflexivity|].
    unfold throw.
    destruct (Z.eqb_spec code 401) as [->|Hne].
    + now apply response_onRejected_401.
    + apply response_onRejected_other. intros H. apply Hne.
      change (JNum code = JNum 401) in H. congruence.
  - unfold throw. now apply response_onRejected_other.
Qed.

Lemma api_request_server_side server config s :
  window s = None ->
  api_request server config s = (s, Throw (ReferenceError "localStorage")).
Proof.
  intros Hw. unfold api_request, then_, bind.
  rewrite (request_interceptor_server_side config s Hw).
  now apply response_onRejected_other.
Qed.

(** ** The calls of authApi *)

Lemma response_data_run server config store s :
  window s = Some store ->
  (response <- api_request server config ;; member response "data") s =
  outcome store (server (bearer store config)) s.
Proof.
  intros Hw. unfold bind. rewrite (api_request_browser server config store s Hw).
  unfold outcome. destruct (server (bearer store config)) as [code body|]; [|reflexivity].
  destruct (validateStatus code); [reflexivity|].
  destruct (code =? 401)%Z; reflexivity.
Qed.

Lemma login_call server v store s :
  window s = Some store ->
  authApi.login server v s = outcome store (server (bearer store (post_config "/auth/login" v))) s.
Proof. apply response_data_run. Qed.

Lemma register_call server v store s :
  window s = Some store ->
  authApi.register server v s =
  outcome store (server (bearer store (post_config "/auth/register" v))) s.
Proof. apply response_data_run. Qed.

Lemma registerClient_call server v store s :
  window s = Some store ->
  authApi.registerClient server v s =
  outcome store (server (bearer store (post_config "/clients" v))) (push_console v s).
Proof.
  intros Hw. unfold authApi.registerClient, bind at 1, console_log.
  now apply response_data_run.
Qed.

Lemma getClients_call server v store s :
  window s = Some store ->
  authApi.getClients server v s = outcome store (server (bearer store (get_config "/clients" v))) s.
Proof. apply response_data_run. Qed.

(** Outside a browser every call is rejected before a request goes out,
    and changes nothing but the console. *)
Lemma server_side_call server config s :
  window s = None ->
  (response <- api_request server config ;; member response "data") s =
  (s, Throw (ReferenceError "localStorage")).
Proof.
  intros Hw. unfold bind. now rewrite (api_request_server_side server config s Hw).
Qed.

(** What a settled call leaves in the storage. *)
Lemma outcome_fulfilled store r s s' d :
  outcome store r s = (s', Normal d) -> s' = s.
Proof.
  unfold outcome. destruct r as [code body|]; [|discriminate].
  destruct (validateStatus code); [congruence|].
  destruct (code =? 401)%Z; discriminate.
Qed.

Lemma outcome_rejected store r s s' e :
  outcome store r s = (s', Throw e) ->
  (error_status e = JNum 401 /\ s' = expire_session store s) \/
  (error_status e <> JNum 401 /\ s' = s).
Proof.
  unfold outcome. destruct r as [code body|].
  - destruct (validateStatus code); [discriminate|].
    destruct (Z.eqb_spec code 401) as [->|Hne]; intros [= <- <-].
    + left. split; reflexivity.
    + right. split; [|reflexivity]. rewrite error_status_status_error. congruence.
  - intros [= <- <-]. right. split; [discriminate|reflexivity].
Qed.

(** ** Mutations *)

(** A mutation whose call is rejected ends in [error] with the rejection,
    and its success hook does not run. *)
Lemma mutate_rejected k fn onSuccess v s s1 e :
  fn v (set_mutation k pendingMutation s) = (s1, Throw e) ->
  mutate k fn onSuccess v s = set_mutation k (errorMutation e) s1.
Proof. intros H. unfold mutate. now rewrite H. Qed.

Lemma mutate_fulfilled k fn onSuccess v s s1 d s2 :
  fn v (set_mutation k pendingMutation s) = (s1, Normal d) ->
  onSuccess d s1 = (s2, Normal tt) ->
  mutate k fn onSuccess v s = set_mutation k (successMutation d) s2.
Proof. intros H1 H2. unfold mutate. now rewrite H1, H2. Qed.

(** The call behind each action, in a browser. *)
Lemma step_call a store s server r k :
  window s = Some store ->
  sends a store = Some (server, r) ->
  action_key a = Some k ->
  exists fn onSuccess v s0,
    step a s = mutate k fn onSuccess v s /\
    fn v (set_mutation k pendingMutation s) = outcome store (server r) s0 /\
    window s0 = Some store /\ navigation s0 = navigation s /\ clients s0 = clients s /\
    get_mutation k s0 = pendingMutation.
Proof.
  intros Hw Hs Hk.
  assert (Hp : forall k', window (set_mutation k' pendingMutation s) = Some store)
    by (intros k'; now rewrite window_set_mutation).
  destruct a as [srv v|srv v|srv v|srv v|]; simpl in Hs, Hk; try discriminate;
    injection Hs as <- <-; injection Hk as <-.
  - exists (authApi.login srv), useAuth.loginMutation_onSuccess, v, (set_mutation KLogin pendingMutation s).
    split; [reflexivity|]. split; [now apply login_call|]. now rewrite Hp.
  - exists (authApi.register srv), useAuth.registerMutation_onSuccess, v,
      (set_mutation KRegister pendingMutation s).
    split; [reflexivity|]. split; [now apply register_call|]. now rewrite Hp.
  - exists (authApi.registerClient srv), useAuth.registerClientMutation_onSuccess, v,
      (push_console v (set_mutation KRegisterClient pendingMutation s)).
    split; [reflexivity|]. split; [now apply registerClient_call|]. simpl. now rewrite Hw.
  - exists (authApi.getClients srv), useAuth.clientsMutation_onSuccess, v,
      (set_mutation KClients pendingMutation s).
    split; [reflexivity|]. split; [now apply getClients_call|]. now rewrite Hp.
Qed.

(** ** What an action does to the token *)

(** A mutation whose success hook neither throws nor touches the token:
    the token goes only when the call observed a 401. *)
Lemma mutate_frame k fn onSuccess v s store reply s0 :
  fn v (set_mutation k pendingMutation s) = outcome store reply s0 ->
  stored_token s0 = stored_token s ->
  (forall d s1, exists s2, onSuccess d s1 = (s2, Normal tt) /\ stored_token s2 = stored_token s1) ->
  (status (get_mutation k (mutate k fn onSuccess v s)) = success /\
   stored_token (mutate k fn onSuccess v s) = stored_token s) \/
  (status (get_mutation k (mutate k fn onSuccess v s)) = error /\
   error_status (error_of (get_mutation k (mutate k fn onSuccess v s))) = JNum 401 /\
   stored_token (mutate k fn onSuccess v s) = None) \/
  (status (get_mutation k (mutate k fn onSuccess v s)) = error /\
   error_status (error_of (get_mutation k (mutate k fn onSuccess v s))) <> JNum 401 /\
   stored_token (mutate k fn onSuccess v s) = stored_token s).
Proof.
  intros Hcall Htok Hhook.
  destruct (outcome store reply s0) as [s1 [d|e]] eqn:Ho.
  - apply outcome_fulfilled in Ho. subst s1.
    destruct (Hhook d s0) as (s2 & Hs2 & Ht2).
    rewrite (mutate_fulfilled _ _ _ _ _ _ _ _ Hcall Hs2).
    left. rewrite get_set_mutation, stored_token_set_mutation. split; [reflexivity|congruence].
  - rewrite (mutate_rejected _ _ _ _ _ _ _ Hcall).
    rewrite get_set_mutation, stored_token_set_mutation. simpl.
    apply outcome_rejected in Ho. destruct Ho as [[He ->]|[He ->]].
    + right; left. split; [reflexivity|]. split; [exact He|apply stored_token_expire].
    + right; right. split; [reflexivity|]. split; [exact He|exact Htok].
Qed.

(** Login: on success the token is whatever [String(data.access_token)]
    is; otherwise as for the other mutations. *)
Lemma login_token server v store s :
  window s = Some store ->
  (status (loginMutation (useAuth.login server v s)) = success /\
   stored_token (useAuth.login server v s) =
     Some (to_string (prop (data (loginMutation (useAuth.login server v s))) "access_token"))) \/
  (status (loginMutation (useAuth.login server v s)) = error /\
   error_status (error_of (loginMutation (useAuth.login server v s))) = JNum 401 /\
   stored_token (useAuth.login server v s) = None) \/
  (status (loginMutation (useAuth.login server v s)) = error /\
   error_status (error_of (loginMutation (useAuth.login server v s))) <> JNum 401 /\
   stored_token (useAuth.login server v s) = stored_token s).
Proof.
  intros Hw. unfold useAuth.login, mutate.
  rewrite (login_call server v store (set_mutation KLogin pendingMutation s)) by exact Hw.
  destruct (outcome store _ _) as [s1 [d|e]] eqn:Ho.
  - apply outcome_fulfilled in Ho. subst s1.
    unfold useAuth.loginMutation_onSuccess, member, bind, setItem.
    destruct d; simpl; rewrite ?Hw; simpl;
      first
        [ solve [ left; split; [reflexivity|]; unfold stored_token; simpl;
                  apply lookup_insert_eq ]
        | solve [ right; right; (split; [reflexivity|]); (split; [discriminate|]);
                  unfold stored_token; simpl; rewrite ?Hw; reflexivity ] ].
  - apply outcome_rejected in Ho. simpl. destruct Ho as [[He ->]|[He ->]].
    + right; left. split; [reflexivity|]. split; [exact He|].
      unfold stored_token; simpl. apply lookup_delete_eq.
    + right; right. split; [reflexivity|]. split; [exact He|reflexivity].
Qed.

Lemma window_of_token s t :
  stored_token s = Some t -> exists store, window s = Some store /\ store !! "auth_token" = Some t.
Proof.
  unfold stored_token. destruct (window s) as [store|]; [|discriminate].
  intros H. now exists store.
Qed.

(** One action on a run that keeps the session leaves a non-empty token
    in the storage. *)
Lemma step_keeps_token a s t :
  stored_token s = Some t -> t <> EmptyString ->
  a <> ALogout ->
  ~ observed_401 a s ->
  (login_succeeded a s ->
   to_string (prop (data (loginMutation (step a s))) "access_token") <> EmptyString) ->
  exists t', stored_token (step a s) = Some t' /\ t' <> EmptyString.
Proof.
  intros Ht Hne Hlogout H401 Hlogin.
  destruct (window_of_token s t Ht) as (store & Hw & _).
  assert (Hp : forall k, window (set_mutation k pendingMutation s) = Some store)
    by (intros k; now rewrite window_set_mutation).
  assert (Hframe : forall k,
             action_key a = Some k ->
             (status (get_mutation k (step a s)) = success /\
              stored_token (step a s) = stored_token s) \/
             (status (get_mutation k (step a s)) = error /\
              error_status (error_of (get_mutation k (step a s))) = JNum 401 /\
              stored_token (step a s) = None) \/
             (status (get_mutation k (step a s)) = error /\
              error_status (error_of (get_mutation k (step a s))) <> JNum 401 /\
              stored_token (step a s) = stored_token s) ->
             exists t', stored_token (step a s) = Some t' /\ t' <> EmptyString).
  { intros k Hk [[_ Hs]|[(He & H4 & _)|(_ & _ & Hs)]].
    - exists t. split; [congruence|exact Hne].
    - exfalso. apply H401. exists k. auto.
    - exists t. split; [congruence|exact Hne]. }
  destruct a as [srv v|srv v|srv v|srv v|]; [| | | |congruence].
  - destruct (login_token srv v store s Hw) as [[Hs Hstored]|H].
    + eexists. split; [exact Hstored|]. apply Hlogin. split; [reflexivity|exact Hs].
    + apply (Hframe KLogin eq_refl). right. exact H.
  - apply (Hframe KRegister eq_refl).
    apply (mutate_frame KRegister (authApi.register srv)
             useAuth.registerMutation_onSuccess v s store
             (srv (bearer store (post_config "/auth/register" v)))
             (set_mutation KRegister pendingMutation s)).
    + now apply register_call.
    + apply stored_token_set_mutation.
    + intros d s1. eexists. split; reflexivity.
  - apply (Hframe KRegisterClient eq_refl).
    apply (mutate_frame KRegisterClient (authApi.registerClient srv)
             useAuth.registerClientMutation_onSuccess v s store
             (srv (bearer store (post_config "/clients" v)))
             (push_console v (set_mutation KRegisterClient pendingMutation s))).
    + now apply registerClient_call.
    + reflexivity.
    + intros d s1. eexists. split; reflexivity.
  - apply (Hframe KClients eq_refl).
    apply (mutate_frame KClients (authApi.getClients srv)
             useAuth.clientsMutation_onSuccess v s store
             (srv (bearer store (get_config "/clients" v)))
             (set_mutation KClients pendingMutation s)).
    + now apply getClients_call.
    + apply stored_token_set_mutation.
    + intros d s1. eexists. split; reflexivity.
Qed.

Lemma run_keeps_token l :
  forall s t,
    stored_token s = Some t -> t <> EmptyString ->
    session_kept l s ->
    exists t', stored_token (run l s) = Some t' /\ t' <> EmptyString.
Proof.
  induction l as [|a rest IH]; intros s t Ht Hne Hkept; simpl.
  - now exists t.
  - simpl in Hkept. destruct Hkept as (Hlogout & H401 & Hlogin & Hrest).
    destruct (step_keeps_token a s t Ht Hne Hlogout H401 Hlogin) as (t' & Ht' & Hne').
    now apply (IH (step a s) t').
Qed.

(** A fetch of the client list that the remote API answers with a 2xx
    status succeeds with the body as its payload, and leaves the body in
    the registry. *)
Lemma clients_fetch_fulfilled server v store s code P :
  window s = Some store ->
  server (bearer store (get_config "/clients" v)) = HttpReply code P ->
  validateStatus code = true ->
  clientsMutation (useAuth.clientsMutation_mutate server v s) = successMutation P /\
  clients (useAuth.clientsMutation_mutate server v s) = P.
Proof.
  intros Hw Hr Hv.
  assert (Hcall : authApi.getClients server v (set_mutation KClients pendingMutation s) =
                  (set_mutation KClients pendingMutation s, Normal P)).
  { rewrite (getClients_call server v store) by (now rewrite window_set_mutation).
    rewrite Hr. unfold outcome. now rewrite Hv. }
  unfold useAuth.clientsMutation_mutate.
  rewrite (mutate_fulfilled KClients _ useAuth.clientsMutation_onSuccess v s _ P
             (set_clients P (set_mutation KClients pendingMutation s)) Hcall eq_refl).
  split; [apply (get_set_mutation KClients)|]. now rewrite clients_set_mutation.
Qed.

(** ** The claims *)

(** C8: where durable storage does not exist (no [window] object),
    [isAuthenticated()] returns [false]: it does not throw, and it leaves
    the state as it was. *)
Theorem isAuthenticated_without_window :
  forall s : State, window s = None -> useAuth.isAuthenticated s = (s, Normal false).
Proof.
  intros s Hw. apply isAuthenticated_no_token. unfold stored_token. now rewrite Hw.
Qed.

Lemma isAuthenticated_without_window_witness :
  window server_side = None /\
  useAuth.isAuthenticated server_side = (server_side, Normal false).
Proof.
  split; [reflexivity|]. apply (isAuthenticated_without_window server_side). reflexivity.
Defined.

(** C7: on an error whose response status is not 401 (an error without a
    response included), the response interceptor leaves the whole state,
    so the persisted token and the navigation events, as it was and
    rejects with the very error it received. *)
Theorem other_errors_pass_through :
  forall (fields : list (string * Js)) (s : State),
    error_status (JObj fields) <> JNum 401 ->
    response_onRejected (JObj fields) s = (s, Throw (JObj fields)) /\
    stored_token (fst (response_onRejected (JObj fields) s)) = stored_token s /\
    navigation (fst (response_onRejected (JObj fields) s)) = navigation s.
Proof.
  intros fields s H. rewrite (response_onRejected_other fields s H). repeat split.
Qed.

Lemma other_errors_pass_through_witness :
  let fields := [("name", JStr "AxiosError");
                 ("message", JStr "Request failed with status code 500");
                 ("response", response_object 500 (JObj [("detail", JStr "boom")]))] in
  response_onRejected (JObj fields) (logged_in "tok123") =
    (logged_in "tok123", Throw (JObj fields)) /\
  stored_token (fst (response_onRejected (JObj fields) (logged_in "tok123"))) =
    stored_token (logged_in "tok123") /\
  navigation (fst (response_onRejected (JObj fields) (logged_in "tok123"))) =
    navigation (logged_in "tok123").
Proof.
  apply (other_errors_pass_through _ (logged_in "tok123")). discriminate.
Defined.

(** C1: in a browser, on every error whose response status is 401 the
    response interceptor removes the persisted token, so that
    [isAuthenticated()] is false afterwards, adds exactly one navigation
    event, to the login view, and rejects with the error it received;
    and whichever action of the hook sent the request, its mutation ends
    in its error state, holding that error. *)
Theorem unauthorized_expires_session :
  forall (a : Action) (store : gmap string string) (s : State)
         (server : Server) (r : Request) (k : MutationKey) (body : Js),
    window s = Some store ->
    sends a store = Some (server, r) ->
    action_key a = Some k ->
    server r = HttpReply 401 body ->
    (forall fields store0 s0,
        window s0 = Some store0 ->
        error_status (JObj fields) = JNum 401 ->
        exists s1,
          response_onRejected (JObj fields) s0 = (s1, Throw (JObj fields)) /\
          stored_token s1 = None /\
          useAuth.isAuthenticated s1 = (s1, Normal false) /\
          navigation s1 = (navigation s0 ++ [LocationHref "/login"])%list) /\
    to_login (LocationHref "/login") = true /\
    stored_token (step a s) = None /\
    useAuth.isAuthenticated (step a s) = (step a s, Normal false) /\
    navigation (step a s) = (navigation s ++ [LocationHref "/login"])%list /\
    get_mutation k (step a s) = errorMutation (status_error 401 body).
Proof.
  intros a store s server r k body Hw Hs Hk Hr.
  split; [|split; [reflexivity|]].
  - intros fields store0 s0 Hw0 H401. exists (expire_session store0 s0).
    split; [now apply response_onRejected_401|].
    split; [apply stored_token_expire|].
    split; [apply isAuthenticated_no_token, stored_token_expire|reflexivity].
  - destruct (step_call a store s server r k Hw Hs Hk)
      as (fn & onSuccess & v & s0 & Hstep & Hcall & Hw0 & Hn0 & _ & _).
    rewrite Hr in Hcall. simpl in Hcall.
    rewrite Hstep, (mutate_rejected _ _ _ _ _ _ _ Hcall).
    assert (Htok : stored_token (set_mutation k (errorMutation (status_error 401 body))
                                   (expire_session store s0)) = None)
      by (rewrite stored_token_set_mutation; apply stored_token_expire).
    split; [exact Htok|].
    split; [now apply isAuthenticated_no_token|].
    split; [|apply get_set_mutation].
    rewrite navigation_set_mutation. simpl. now rewrite Hn0.
Qed.

Lemma unauthorized_expires_session_witness :
  let a := AClients (stub invalid_credentials) (GetClientsRequest 0 100) in
  let s := logged_in "tok123" in
  stored_token (step a s) = None /\
  useAuth.isAuthenticated (step a s) = (step a s, Normal false) /\
  navigation (step a s) = [LocationHref "/login"] /\
  get_mutation KClients (step a s) =
    errorMutation (status_error 401 (JObj [("detail", JStr "Invalid credentials")])).
Proof.
  destruct (unauthorized_expires_session
              (AClients (stub invalid_credentials) (GetClientsRequest 0 100))
              {[ "auth_token" := "tok123" ]} (logged_in "tok123")
              (stub invalid_credentials)
              (bearer {[ "auth_token" := "tok123" ]} (get_config "/clients" (GetClientsRequest 0 100)))
              KClients (JObj [("detail", JStr "Invalid credentials")])
              eq_refl eq_refl eq_refl eq_refl)
    as (_ & _ & Ht & Ha & Hn & Hm).
  split; [exact Ht|]. split; [exact Ha|]. split; [exact Hn|exact Hm].
Defined.

(** C9: in a browser, [logout] from any state removes the persisted
    token, so that [isAuthenticated()] is false, sets the client registry
    to the empty list, and adds one navigation event, to the login
    view. *)
Theorem logout_ends_session :
  forall (s : State) (store : gmap string string),
    window s = Some store ->
    exists s',
      useAuth.logout s = (s', Normal tt) /\
      window s' = Some (delete "auth_token" store) /\
      stored_token s' = None /\
      useAuth.isAuthenticated s' = (s', Normal false) /\
      clients s' = JArr [] /\
      navigation s' = (navigation s ++ [RouterPush "/login"])%list /\
      to_login (RouterPush "/login") = true.
Proof.
  intros s store Hw.
  unfold useAuth.logout, bind, removeItem. rewrite Hw. simpl.
  eexists. split; [reflexivity|]. split; [reflexivity|].
  assert (Htok : forall s1, window s1 = Some (delete "auth_token" store) -> stored_token s1 = None).
  { intros s1 H1. unfold stored_token. rewrite H1. apply lookup_delete_eq. }
  split; [now apply Htok|].
  split; [now apply isAuthenticated_no_token, Htok|].
  repeat split.
Qed.

Lemma logout_ends_session_witness :
  exists s',
    useAuth.logout (logged_in "tok123") = (s', Normal tt) /\
    window s' = Some (delete "auth_token" {[ "auth_token" := "tok123" ]}) /\
    stored_token s' = None /\
    useAuth.isAuthenticated s' = (s', Normal false) /\
    clients s' = JArr [] /\
    navigation s' = (navigation (logged_in "tok123") ++ [RouterPush "/login"])%list /\
    to_login (RouterPush "/login") = true.
Proof.
  apply (logout_ends_session (logged_in "tok123") {[ "auth_token" := "tok123" ]}).
  reflexivity.
Defined.

(** C10: a successful Register invocation leaves the storage, and so the
    persisted token, as it was, and stores nothing: apart from the state
    of its own mutation, all it changes is the navigation, by one event
    to the login view, which is the whole effect of its success hook. *)
Theorem register_success_keeps_session :
  forall (server : Server) (userData : Js) (s : State),
    status (registerMutation (useAuth.register server userData s)) = success ->
    window (useAuth.register server userData s) = window s /\
    stored_token (useAuth.register server userData s) = stored_token s /\
    navigation (useAuth.register server userData s) =
      (navigation s ++ [RouterPush "/login?message=Registration successful"])%list /\
    to_login (RouterPush "/login?message=Registration successful") = true /\
    clients (useAuth.register server userData s) = clients s /\
    console (useAuth.register server userData s) = console s /\
    loginMutation (useAuth.register server userData s) = loginMutation s /\
    (forall d s0,
        useAuth.registerMutation_onSuccess d s0 =
        (push_nav (RouterPush "/login?message=Registration successful") s0, Normal tt)).
Proof.
  intros server v s. unfold useAuth.register, mutate.
  destruct (window s) as [store|] eqn:Hw.
  - rewrite (register_call server v store (set_mutation KRegister pendingMutation s)) by exact Hw.
    destruct (outcome store _ _) as [s1 [d|e]] eqn:Ho; simpl; [|discriminate].
    apply outcome_fulfilled in Ho. subst s1. intros _.
    unfold stored_token; simpl. rewrite ?Hw. repeat split; exact Hw.
  - unfold authApi.register, api_post.
    rewrite (server_side_call server _ (set_mutation KRegister pendingMutation s)) by exact Hw.
    simpl. discriminate.
Qed.

Lemma register_success_keeps_session_witness :
  let s := useAuth.register (stub (HttpReply 201 (JObj [("id", JNum 7)])))
             (RegisterRequest "a@b.com" "Secret1" true) (logged_in "tok123") in
  stored_token s = Some "tok123" /\
  navigation s = [RouterPush "/login?message=Registration successful"].
Proof.
  destruct (register_success_keeps_session
              (stub (HttpReply 201 (JObj [("id", JNum 7)])))
              (RegisterRequest "a@b.com" "Secret1" true) (logged_in "tok123") eq_refl)
    as (_ & Ht & Hn & _).
  split; [exact Ht|exact Hn].
Defined.

(** C6: after two consecutive successful ListClients fetches with
    payloads [P1] then [P2], the client registry is exactly [P2]: no
    element of [P1] that is absent from [P2] remains in it. *)
Theorem second_fetch_replaces_registry :
  forall (server1 server2 : Server) (v1 v2 P1 P2 : Js) (s : State),
    clientsMutation (useAuth.clientsMutation_mutate server1 v1 s) = successMutation P1 ->
    clientsMutation
      (useAuth.clientsMutation_mutate server2 v2
         (useAuth.clientsMutation_mutate server1 v1 s)) = successMutation P2 ->
    clients (useAuth.clientsMutation_mutate server1 v1 s) = P1 /\
    clients (useAuth.clientsMutation_mutate server2 v2
               (useAuth.clientsMutation_mutate server1 v1 s)) = P2 /\
    (forall x, In x (elements_of P1) -> ~ In x (elements_of P2) ->
       ~ In x (elements_of
                 (clients (useAuth.clientsMutation_mutate server2 v2
                             (useAuth.clientsMutation_mutate server1 v1 s))))).
Proof.
  assert (Hone : forall server v P s,
             clientsMutation (useAuth.clientsMutation_mutate server v s) = successMutation P ->
             clients (useAuth.clientsMutation_mutate server v s) = P).
  { intros server v P s. unfold useAuth.clientsMutation_mutate, mutate.
    destruct (authApi.getClients server v _) as [s1 [d|e]]; simpl; [|discriminate].
    intros [= ->]. reflexivity. }
  intros server1 server2 v1 v2 P1 P2 s H1 H2.
  split; [now apply Hone|]. rewrite (Hone _ _ _ _ H2). split; [reflexivity|].
  intros x _ Hx. exact Hx.
Qed.

Lemma second_fetch_replaces_registry_witness :
  let P1 := JArr [client_example 1 "ana" true; client_example 2 "bia" false] in
  let P2 := JArr [client_example 2 "bia" false] in
  let s2 := useAuth.clientsMutation_mutate (stub (HttpReply 200 P2)) (GetClientsRequest 0 100)
              (useAuth.clientsMutation_mutate (stub (HttpReply 200 P1)) (GetClientsRequest 0 100)
                 (logged_in "tok123")) in
  clients s2 = P2 /\ ~ In (client_example 1 "ana" true) (elements_of (clients s2)).
Proof.
  destruct (second_fetch_replaces_registry
              (stub (HttpReply 200 (JArr [client_example 1 "ana" true; client_example 2 "bia" false])))
              (stub (HttpReply 200 (JArr [client_example 2 "bia" false])))
              (GetClientsRequest 0 100) (GetClientsRequest 0 100)
              (JArr [client_example 1 "ana" true; client_example 2 "bia" false])
              (JArr [client_example 2 "bia" false])
              (logged_in "tok123") eq_refl eq_refl)
    as (_ & H2 & H3).
  split; [exact H2|]. apply H3.
  - left. reflexivity.
  - intros [H|[]]. discriminate H.
Defined.

(** C2, as amended: in every state, reachable or not, [isAuthenticated()]
    returns a boolean, and it is true exactly when a non-empty token is
    stored under the fixed key; a login that succeeds stores
    [String(data.access_token)], so it authenticates when that string is
    not empty; and from an authenticated state [isAuthenticated()] stays
    true along every run without a logout, without an observed 401 and
    without a successful login that stores an empty token. *)
Theorem authenticated_iff_nonempty_token :
  forall s : State,
    (useAuth.isAuthenticated s = (s, Normal true) <->
     exists t, stored_token s = Some t /\ t <> EmptyString) /\
    (useAuth.isAuthenticated s = (s, Normal true) \/
     useAuth.isAuthenticated s = (s, Normal false)) /\
    (forall server v,
        status (loginMutation (useAuth.login server v s)) = success ->
        stored_token (useAuth.login server v s) =
          Some (to_string (prop (data (loginMutation (useAuth.login server v s))) "access_token"))) /\
    (forall l,
        useAuth.isAuthenticated s = (s, Normal true) ->
        session_kept l s ->
        useAuth.isAuthenticated (run l s) = (run l s, Normal true)).
Proof.
  intros s. split; [apply isAuthenticated_true|]. split; [|split].
  - rewrite isAuthenticated_run.
    destruct (stored_token s) as [t|]; [|now right].
    destruct (String.eqb t EmptyString); [now right|now left].
  - intros server v Hs. destruct (window s) as [store|] eqn:Hw.
    + destruct (login_token server v store s Hw) as [[_ H]|[(He & _)|(He & _)]];
        [exact H|congruence|congruence].
    + exfalso. revert Hs. unfold useAuth.login, mutate, authApi.login, api_post.
      rewrite (server_side_call server _ (set_mutation KLogin pendingMutation s)) by exact Hw.
      discriminate.
  - intros l Ha Hkept. apply isAuthenticated_true in Ha. destruct Ha as (t & Ht & Hne).
    apply isAuthenticated_true. now apply (run_keeps_token l s t).
Qed.

Lemma authenticated_iff_nonempty_token_witness :
  let s := useAuth.login (stub (token_reply "tok123")) credentials_example initial_state in
  let l := [AClients (stub (HttpReply 200 (JArr []))) (GetClientsRequest 0 100);
            ARegisterClient (stub (HttpReply 422 (JObj [("detail", JStr "bad")])))
              (RegisterClientRequest "ana" "ana@x.com" true)] in
  stored_token s = Some "tok123" /\
  useAuth.isAuthenticated (run l s) = (run l s, Normal true).
Proof.
  pose proof (authenticated_iff_nonempty_token initial_state) as (_ & _ & Hlogin & _).
  pose proof (authenticated_iff_nonempty_token
                (useAuth.login (stub (token_reply "tok123")) credentials_example initial_state))
    as (Hiff & _ & _ & Hrun).
  split.
  - apply (Hlogin (stub (token_reply "tok123")) credentials_example). reflexivity.
  - apply Hrun.
    + apply Hiff. exists "tok123". split; [reflexivity|discriminate].
    + simpl. split; [discriminate|]. split.
      { intros (k & Hk & _ & He). injection Hk as <-. discriminate He. }
      split; [intros [Hk _]; discriminate Hk|].
      split; [discriminate|]. split.
      { intros (k & Hk & _ & He). injection Hk as <-. discriminate He. }
      split; [intros [Hk _]; discriminate Hk|exact I].
Defined.

(** C2, as stated, fails: a login that the remote API answers with an
    empty access token succeeds and stores it, and in the state it leaves
    a token is present under the key while [isAuthenticated()] is
    false. *)
Lemma empty_token_not_authenticated :
  reachable empty_token_login /\
  status (loginMutation empty_token_login) = success /\
  stored_token empty_token_login = Some EmptyString /\
  useAuth.isAuthenticated empty_token_login = (empty_token_login, Normal false) /\
  ~ authenticated_iff_stored.
Proof.
  assert (Hr : reachable empty_token_login) by (eexists; reflexivity).
  assert (Ht : stored_token empty_token_login = Some EmptyString) by reflexivity.
  split; [exact Hr|]. split; [reflexivity|]. split; [exact Ht|].
  split; [now rewrite isAuthenticated_run, Ht|].
  intros H. destruct (H empty_token_login Hr) as [_ Hback].
  assert (Ha : useAuth.isAuthenticated empty_token_login = (empty_token_login, Normal true))
    by (apply Hback; now exists EmptyString).
  apply isAuthenticated_true in Ha. destruct Ha as (t & Ht' & Hne).
  rewrite Ht in Ht'. congruence.
Qed.

(** C3, as amended: in a browser the request interceptor lets every
    request through, with the header [Authorization: Bearer <token>] set
    when a non-empty token is stored, and exactly as it came when no
    token or an empty token is stored; the requests the client builds
    carry no Authorization header of their own, so none goes out then. *)
Theorem bearer_header_for_nonempty_token :
  forall (config : Request) (store : gmap string string) (s : State),
    window s = Some store ->
    exists config',
      request_interceptor config s = (s, Normal config') /\
      (forall t, store !! "auth_token" = Some t -> t <> EmptyString ->
         config' = set_header "Authorization" ("Bearer " ++ t) config /\
         headers config' !! "Authorization" = Some ("Bearer " ++ t)) /\
      (store !! "auth_token" = None \/ store !! "auth_token" = Some EmptyString ->
         config' = config) /\
      (forall url d,
         headers (post_config url d) !! "Authorization" = None /\
         headers (get_config url d) !! "Authorization" = None).
Proof.
  intros config store s Hw. exists (bearer store config).
  split; [now apply request_interceptor_browser|]. unfold bearer. split; [|split].
  - intros t Ht Hne. rewrite Ht, (eqb_empty_false t Hne).
    split; [reflexivity|]. simpl. apply lookup_insert_eq.
  - intros [H|H]; now rewrite H.
  - intros url d. split; reflexivity.
Qed.

Lemma bearer_header_for_nonempty_token_witness :
  exists config',
    request_interceptor (get_config "/clients" (GetClientsRequest 0 100)) (logged_in "tok123") =
      (logged_in "tok123", Normal config') /\
    headers config' !! "Authorization" = Some "Bearer tok123".
Proof.
  destruct (bearer_header_for_nonempty_token
              (get_config "/clients" (GetClientsRequest 0 100))
              {[ "auth_token" := "tok123" ]} (logged_in "tok123") eq_refl)
    as (config' & Hrun & Hset & _).
  exists config'. split; [exact Hrun|].
  apply (Hset "tok123"); [reflexivity|discriminate].
Defined.

(** C3, as stated, fails: with the empty token of [empty_token_login]
    present in the storage, the request goes out without an
    Authorization header. *)
Lemma empty_token_sends_no_header :
  stored_token empty_token_login = Some EmptyString /\
  (exists config',
      request_interceptor (get_config "/clients" (GetClientsRequest 0 100)) empty_token_login =
        (empty_token_login, Normal config') /\
      headers config' !! "Authorization" = None) /\
  ~ attaches_bearer_whenever_stored.
Proof.
  assert (Ht : stored_token empty_token_login = Some EmptyString) by reflexivity.
  assert (Hrun : request_interceptor (get_config "/clients" (GetClientsRequest 0 100))
                   empty_token_login =
                 (empty_token_login, Normal (get_config "/clients" (GetClientsRequest 0 100))))
    by reflexivity.
  split; [exact Ht|]. split.
  - eexists. split; [exact Hrun|reflexivity].
  - intros H.
    destruct (H empty_token_login (get_config "/clients" (GetClientsRequest 0 100))
                EmptyString Ht) as (config' & Hrun' & Hh).
    rewrite Hrun in Hrun'. injection Hrun' as <-. discriminate Hh.
Qed.

(** C4, on the code: [getClients] hands its input to [api.get] as the
    request config, so the GET request to [/clients] has no [params] and
    an empty query string, whatever [skip] and [limit] are, and the same
    request goes out for every input; had the input been passed under
    [params], the query would carry both. *)
Theorem getClients_sends_no_query :
  forall skip limit : Z,
    method (get_config "/clients" (GetClientsRequest skip limit)) = "get" /\
    url (get_config "/clients" (GetClientsRequest skip limit)) = "/clients" /\
    params (get_config "/clients" (GetClientsRequest skip limit)) = JUndefined /\
    query (get_config "/clients" (GetClientsRequest skip limit)) = [] /\
    (forall store, query (bearer store (get_config "/clients" (GetClientsRequest skip limit))) = []) /\
    (forall server s,
        authApi.getClients server (GetClientsRequest skip limit) s =
        authApi.getClients server (GetClientsRequest 0 0) s) /\
    query (get_config "/clients" (JObj [("params", GetClientsRequest skip limit)])) =
      [("skip", JNum skip); ("limit", JNum limit)].
Proof.
  intros skip limit. repeat split.
  intros store. unfold bearer.
  destruct (store !! "auth_token") as [t|]; [|reflexivity].
  destruct (String.eqb t EmptyString); reflexivity.
Qed.

(** C5, on the code: a login answered with 401 and the body
    [{detail: "Invalid credentials"}] ends with the mutation in its error
    state and the session unauthenticated, but the error it holds is the
    axios error: its [detail] property is undefined, the detail sits
    under [response.data], and the login page shows its fallback text. *)
Theorem login_401_error_has_no_detail :
  status (loginMutation (useAuth.login (stub invalid_credentials) credentials_example initial_state))
    = error /\
  error_of (loginMutation (useAuth.login (stub invalid_credentials) credentials_example initial_state))
    = status_error 401 (JObj [("detail", JStr "Invalid credentials")]) /\
  prop (error_of (loginMutation
                    (useAuth.login (stub invalid_credentials) credentials_example initial_state)))
    "detail" = JUndefined /\
  prop (prop (prop (error_of (loginMutation
                                (useAuth.login (stub invalid_credentials) credentials_example
                                   initial_state)))
                "response") "data") "detail" = JStr "Invalid credentials" /\
  login_error_text (error_of (loginMutation
                                (useAuth.login (stub invalid_credentials) credentials_example
                                   initial_state)))
    = Some "Erro ao fazer login" /\
  stored_token (useAuth.login (stub invalid_credentials) credentials_example initial_state) = None /\
  useAuth.isAuthenticated (useAuth.login (stub invalid_credentials) credentials_example initial_state)
    = (useAuth.login (stub invalid_credentials) credentials_example initial_state, Normal false).
Proof. repeat split. Qed.

(** ** Regular expressions *)

(** [.*x] at a position: some character of [x] stands on the current
    line, from that position on. *)
Lemma dot_star_one cs :
  (forall c, in_set cs c = true -> line_terminator c = false) ->
  forall s bol,
    matches (Seq (Star Dot) (One cs)) bol s (fun _ _ => true) = has cs (first_line s).
Proof.
  intros Hcs s. induction s as [|c rest IH]; intros bol.
  - reflexivity.
  - specialize (IH false). simpl in IH. simpl. rewrite IH. unfold has.
    destruct (line_terminator c) eqn:Hc; simpl.
    + destruct (in_set cs c) eqn:Hin; [|reflexivity].
      apply Hcs in Hin. congruence.
    + now rewrite andb_true_r.
Qed.

Lemma dot_star_one_has cs s bol :
  matches (Seq (Star Dot) (One cs)) bol s (fun _ _ => true) = true -> has cs s = true.
Proof.
  revert bol. induction s as [|c rest IH]; intros bol; simpl.
  - discriminate.
  - specialize (IH false). simpl in IH. unfold has in *. simpl.
    destruct (in_set cs c); [reflexivity|]. simpl.
    destruct (negb (line_terminator c)); simpl; [exact IH|discriminate].
Qed.

(** [/(?=.*x)/.test(s)]: some character of [x] stands in [s]. *)
Lemma search_ahead_some cs s bol : search (ahead_some cs) bol s = has cs s.
Proof.
  revert bol. induction s as [|c rest IH]; intros bol.
  - reflexivity.
  - unfold ahead_some in *.
    change (search (Ahead (Seq (Star Dot) (One cs))) bol (String c rest))
      with (matches (Seq (Star Dot) (One cs)) bol (String c rest) (fun _ _ => true) && true
            || search (Ahead (Seq (Star Dot) (One cs))) false rest).
    rewrite IH, andb_true_r.
    destruct (matches _ bol (String c rest) _) eqn:Hm.
    + simpl. symmetry. now apply (dot_star_one_has cs (String c rest) bol).
    + simpl. unfold has. simpl. simpl in Hm.
      destruct (in_set cs c); [discriminate Hm|reflexivity].
Qed.

Lemma range_not_terminator lo hi :
  (14 <=? nat_of_ascii lo)%nat = true ->
  forall c, in_set (Range lo hi) c = true -> line_terminator c = false.
Proof.
  intros Hlo c Hin. unfold in_set in Hin. apply andb_true_iff in Hin. destruct Hin as [H1 _].
  apply Nat.leb_le in Hlo, H1. unfold line_terminator.
  apply orb_false_iff. split; apply Ascii.eqb_neq; intros ->;
    rewrite nat_ascii_embedding in H1 by lia; lia.
Qed.

Lemma search_bol_false r s : search (Seq Bol r) false s = false.
Proof. induction s as [|c rest IH]; simpl; [reflexivity|exact IH]. Qed.

Lemma password_regex_first_line p :
  test password_regex p =
  has lower (first_line p) && has upper (first_line p) && has digit (first_line p).
Proof.
  assert (Hhere : matches password_regex true p (fun _ _ => true) =
                  has lower (first_line p) && has upper (first_line p) && has digit (first_line p)).
  { unfold password_regex, ahead_some.
    change (matches (Seq Bol _) true p (fun _ _ => true))
      with (true &&
            (matches (Seq (Star Dot) (One lower)) true p (fun _ _ => true) &&
             (matches (Seq (Star Dot) (One upper)) true p (fun _ _ => true) &&
              (matches (Seq (Star Dot) (One digit)) true p (fun _ _ => true) && true)))).
    rewrite !dot_star_one by (apply range_not_terminator; reflexivity).
    simpl. now rewrite andb_true_r, andb_assoc. }
  unfold test. destruct p as [|c rest].
  - reflexivity.
  - change (search password_regex true (String c rest))
      with (matches password_regex true (String c rest) (fun _ _ => true)
            || search password_regex false rest).
    rewrite Hhere. unfold password_regex at 1. now rewrite search_bol_false, orb_false_r.
Qed.

Lemma first_line_single s : single_line s = true -> first_line s = s.
Proof.
  unfold single_line. induction s as [|c rest IH]; simpl; [reflexivity|].
  intros H. apply andb_true_iff in H. destruct H as [Hc Hrest].
  apply negb_true_iff in Hc. rewrite Hc. now rewrite IH.
Qed.

Lemma has_first_line cs s : has cs (first_line s) = true -> has cs s = true.
Proof.
  unfold has. induction s as [|c rest IH]; simpl; [discriminate|].
  destruct (line_terminator c); simpl; [discriminate|].
  destruct (in_set cs c); simpl; [reflexivity|exact IH].
Qed.

(** ** Every state: browser or not *)

(** A call of [authApi] in any state. *)
Lemma call_run server config s :
  (response <- api_request server config ;; member response "data") s =
  match window s with
  | Some store => outcome store (server (bearer store config)) s
  | None => (s, Throw (ReferenceError "localStorage"))
  end.
Proof.
  destruct (window s) as [store|] eqn:Hw.
  - now apply response_data_run.
  - now apply server_side_call.
Qed.

Lemma window_before_call a s : window (before_call a s) = window s.
Proof. destruct a; simpl; rewrite ?window_set_mutation; reflexivity. Qed.

(** An action other than logout in a browser, by how its call settles. *)
Lemma step_browser a k s store server r :
  window s = Some store ->
  sends a store = Some (server, r) ->
  action_key a = Some k ->
  step a s =
  match outcome store (server r) (before_call a s) with
  | (s1, Normal d) =>
      match on_success a d s1 with
      | (s2, Normal _) => set_mutation k (successMutation d) s2
      | (s2, Throw e) => set_mutation k (errorMutation e) s2
      end
  | (s1, Throw e) => set_mutation k (errorMutation e) s1
  end.
Proof.
  intros Hw Hs Hk.
  destruct a as [srv v|srv v|srv v|srv v|]; simpl in Hk, Hs; try discriminate;
    injection Hk as <-; injection Hs as <- <-;
    unfold step, useAuth.login, useAuth.register, useAuth.registerClient,
      useAuth.clientsMutation_mutate, mutate,
      authApi.login, authApi.register, authApi.registerClient, authApi.getClients,
      api_post, api_get.
  3: unfold bind at 1, console_log.
  all: rewrite call_run;
    match goal with
    | |- context [window ?s0] =>
        replace (window s0) with (Some store)
          by (rewrite <- Hw; reflexivity)
    end; reflexivity.
Qed.

(** Outside a browser no request goes out: the mutation ends in error on
    the missing [localStorage], whatever the remote API would answer. *)
Lemma step_server_side a k s :
  window s = None ->
  action_key a = Some k ->
  step a s = set_mutation k (errorMutation (ReferenceError "localStorage")) (before_call a s).
Proof.
  intros Hw Hk.
  destruct a as [srv v|srv v|srv v|srv v|]; simpl in Hk; try discriminate;
    injection Hk as <-;
    unfold step, useAuth.login, useAuth.register, useAuth.registerClient,
      useAuth.clientsMutation_mutate, mutate,
      authApi.login, authApi.register, authApi.registerClient, authApi.getClients,
      api_post, api_get.
  3: unfold bind at 1, console_log.
  all: rewrite call_run;
    match goal with
    | |- context [window ?s0] =>
        replace (window s0) with (@None (gmap string string))
          by (rewrite <- Hw; reflexivity)
    end; reflexivity.
Qed.

(** Case analysis on one step of an action: each mutation outside a
    browser, and in a browser by the reply (2xx with the success hook
    run, 401, another status, no reply); then logout, in a browser and
    outside. *)
Ltac mutation_cases A K srv s :=
  let store := fresh "store" in
  let Hw := fresh "Hw" in
  let code := fresh "code" in
  let body := fresh "body" in
  destruct (window s) as [store|] eqn:Hw;
  [ rewrite (step_browser A K s store srv _ Hw eq_refl eq_refl);
    unfold outcome;
    match goal with |- context [srv ?r] => destruct (srv r) as [code body|] end;
    [ destruct (validateStatus code);
      [ unfold on_success, useAuth.loginMutation_onSuccess, member, bind, setItem,
          useAuth.registerMutation_onSuccess, useAuth.registerClientMutation_onSuccess,
          useAuth.clientsMutation_onSuccess, router_push, setClients
      | destruct (code =? 401)%Z ]
    | ]
  | rewrite (step_server_side A K s Hw eq_refl) ].

Ltac step_cases a s :=
  let srv := fresh "srv" in
  let v := fresh "v" in
  destruct a as [srv v|srv v|srv v|srv v|];
  [ mutation_cases (ALogin srv v) KLogin srv s;
    [ match goal with body : Js |- _ => destruct body end;
      simpl; rewrite ?window_set_mutation;
      match goal with Hw : window s = Some _ |- _ => rewrite ?Hw end
    | .. ]
  | mutation_cases (ARegister srv v) KRegister srv s
  | mutation_cases (ARegisterClient srv v) KRegisterClient srv s
  | mutation_cases (AClients srv v) KClients srv s
  | unfold step, useAuth.logout, bind, removeItem;
    destruct (window s) eqn:?Hw ];
  simpl.

(** ** Further properties of the hook and the gateway client *)

(** X1: whatever the state and the reply, an action writes to the
    console only when it is [registerClient], which logs its input
    exactly once, before the request; no other action logs anything. *)
Theorem console_written_only_by_registerClient :
  forall (a : Action) (s : State),
    console (step a s) = (console s ++ console_entry a)%list.
Proof. intros a s. step_cases a s; rewrite ?app_nil_r; reflexivity. Qed.

(** X2: an action adds at most one navigation event to those already
    there, and every event it adds leads to the login view or to the
    clients view. *)
Theorem at_most_one_navigation :
  forall (a : Action) (s : State),
    exists tail,
      navigation (step a s) = (navigation s ++ tail)%list /\
      (tail = [] \/
       exists n, tail = [n] /\
         (path_of (nav_url n) = "/login" \/ path_of (nav_url n) = "/clients")).
Proof.
  intros a s.
  step_cases a s;
    first [ exists []; split; [now rewrite app_nil_r|now left]
          | eexists [_]; split; [reflexivity|];
            right; eexists; split; [reflexivity|]; simpl; auto ].
Qed.

(** X3: the client registry changes only on a logout, which empties it,
    and on a fetch of the clients that succeeds, which sets it to the
    data of the mutation; a fetch that fails, and every other action,
    leaves it as it was. *)
Theorem registry_changes_only_by_fetch_or_logout :
  forall (a : Action) (s : State),
    clients (step a s) = clients s \/
    (a = ALogout /\ clients (step a s) = JArr []) \/
    (exists server v,
        a = AClients server v /\
        clientsMutation (step a s) = successMutation (clients (step a s))).
Proof.
  intros a s.
  step_cases a s;
    first [ now left
          | right; left; split; reflexivity
          | right; right; eexists _, _; split; reflexivity ].
Qed.

(** X4: the error a failed mutation holds never has a [detail]
    property, whatever the remote API answered: the error lines of the
    login, register and client register pages all show their fallback
    text. *)
Theorem failed_mutation_shows_fallback :
  forall (a : Action) (k : MutationKey) (s : State),
    action_key a = Some k ->
    status (get_mutation k (step a s)) = error ->
    prop (error_of (get_mutation k (step a s))) "detail" = JUndefined /\
    LoginPage.error_child (error_of (get_mutation k (step a s))) = JStr "Erro ao fazer login" /\
    RegisterPage.error_child (error_of (get_mutation k (step a s))) = JStr "Erro ao criar conta" /\
    ClientRegisterPage.error_child (error_of (get_mutation k (step a s))) =
      JStr "Error creating client".
Proof.
  intros a k s Hk. revert Hk.
  step_cases a s; intros [= <-]; simpl; intros Hs; try discriminate Hs; repeat split.
Qed.

Lemma failed_mutation_shows_fallback_witness :
  let s := step (ARegister (stub (HttpReply 400 (JObj [("detail", JStr "Email already registered")])))
                   (RegisterRequest "a@b.com" "Secret1" true)) initial_state in
  prop (prop (prop (error_of (registerMutation s)) "response") "data") "detail" =
    JStr "Email already registered" /\
  RegisterPage.error_child (error_of (registerMutation s)) = JStr "Erro ao criar conta".
Proof.
  split; [reflexivity|].
  apply (failed_mutation_shows_fallback
           (ARegister (stub (HttpReply 400 (JObj [("detail", JStr "Email already registered")])))
              (RegisterRequest "a@b.com" "Secret1" true))
           KRegister initial_state eq_refl eq_refl).
Defined.

(** X5: outside a browser no action sends a request or has an effect
    beyond its own mutation and the console: whatever the remote API
    would answer, the storage stays absent and the navigation and the
    registry stay as they were; a mutation ends in error on the missing
    [localStorage], and [logout] throws on it before it clears
    anything. *)
Theorem server_side_action_sends_nothing :
  forall (a : Action) (s : State),
    window s = None ->
    window (step a s) = None /\
    navigation (step a s) = navigation s /\
    clients (step a s) = clients s /\
    (forall server', step (set_server server' a) s = step a s) /\
    (forall k, action_key a = Some k ->
       status (get_mutation k (step a s)) = error /\
       prop (error_of (get_mutation k (step a s))) "name" = JStr "ReferenceError") /\
    useAuth.logout s = (s, Throw (ReferenceError "localStorage")).
Proof.
  intros a s Hw.
  assert (Hlogout : useAuth.logout s = (s, Throw (ReferenceError "localStorage")))
    by (unfold useAuth.logout, bind, removeItem; now rewrite Hw).
  destruct (action_key a) as [k|] eqn:Hk.
  - pose proof (step_server_side a k s Hw Hk) as Hstep.
    split; [now rewrite Hstep, window_set_mutation, window_before_call|].
    split; [rewrite Hstep, navigation_set_mutation;
            destruct a; simpl; now rewrite ?navigation_set_mutation|].
    split; [rewrite Hstep, clients_set_mutation;
            destruct a; simpl; now rewrite ?clients_set_mutation|].
    split.
    { intros server'.
      assert (Hk' : action_key (set_server server' a) = Some k) by (destruct a; exact Hk).
      rewrite (step_server_side _ k s Hw Hk'), Hstep. destruct a; reflexivity. }
    split; [|exact Hlogout].
    intros k' [= <-]. now rewrite Hstep, get_set_mutation.
  - destruct a; try discriminate Hk. simpl. rewrite Hlogout. simpl.
    split; [exact Hw|]. split; [reflexivity|]. split; [reflexivity|].
    split; [reflexivity|]. split; [|reflexivity]. intros k' Hk'. discriminate Hk'.
Qed.

Lemma server_side_action_sends_nothing_witness :
  let a := ALogin (stub (token_reply "tok123")) credentials_example in
  window (step a server_side) = None /\
  navigation (step a server_side) = [] /\
  status (loginMutation (step a server_side)) = error.
Proof.
  destruct (server_side_action_sends_nothing
              (ALogin (stub (token_reply "tok123")) credentials_example)
              server_side eq_refl) as (Hw & Hn & _ & _ & Hm & _).
  split; [exact Hw|]. split; [exact Hn|]. apply (Hm KLogin eq_refl).
Defined.



(** X7: in a browser the request interceptor changes nothing of a
    request but its Authorization header: method, address, path, query
    parameters, body and every other header go out as they came, and the
    state is not touched. *)
Theorem request_interceptor_changes_only_authorization :
  forall (config : Request) (store : gmap string string) (s : State),
    window s = Some store ->
    exists config',
      request_interceptor config s = (s, Normal config') /\
      method config' = method config /\
      baseURL config' = baseURL config /\
      url config' = url config /\
      params config' = params config /\
      req_data config' = req_data config /\
      (forall k, k <> "Authorization" -> headers config' !! k = headers config !! k).
Proof.
  intros config store s Hw. exists (bearer store config).
  split; [now apply request_interceptor_browser|].
  unfold bearer. destruct (store !! "auth_token") as [t|]; [|repeat split].
  destruct (String.eqb t EmptyString); [repeat split|].
  repeat split. intros k Hk. simpl. apply lookup_insert_ne. congruence.
Qed.

Lemma request_interceptor_changes_only_authorization_witness :
  exists config',
    request_interceptor (post_config "/clients" (RegisterClientRequest "ana" "ana@x.com" true))
      (logged_in "tok123") = (logged_in "tok123", Normal config') /\
    url config' = "/clients" /\
    req_data config' = RegisterClientRequest "ana" "ana@x.com" true /\
    headers config' !! "Content-Type" = Some "application/json".
Proof.
  destruct (request_interceptor_changes_only_authorization
              (post_config "/clients" (RegisterClientRequest "ana" "ana@x.com" true))
              {[ "auth_token" := "tok123" ]} (logged_in "tok123") eq_refl)
    as (config' & Hrun & _ & _ & Hurl & _ & Hdata & Hh).
  exists config'. split; [exact Hrun|]. split; [exact Hurl|]. split; [exact Hdata|].
  rewrite Hh by discriminate. reflexivity.
Defined.

(** The state a login answered 2xx with a defined body ends in. *)
Lemma login_fulfilled server v body code store s :
  window s = Some store ->
  server (bearer store (post_config "/auth/login" v)) = HttpReply code body ->
  validateStatus code = true ->
  defined body = true ->
  useAuth.login server v s =
  set_mutation KLogin (successMutation body)
    (push_nav (RouterPush "/clients")
       (set_window (Some (<["auth_token" := to_string (prop body "access_token")]> store))
          (set_mutation KLogin pendingMutation s))).
Proof.
  intros Hw Hr Hv Hd.
  change (useAuth.login server v s) with (step (ALogin server v) s).
  rewrite (step_browser (ALogin server v) KLogin s store server _ Hw eq_refl eq_refl).
  rewrite Hr. unfold outcome. rewrite Hv.
  unfold on_success, useAuth.loginMutation_onSuccess, member, bind, setItem.
  destruct body; try discriminate Hd; simpl; rewrite Hw; reflexivity.
Qed.

(** The state a login answered 2xx with [null] or no body ends in. *)
Lemma login_undefined_body server v body code store s :
  window s = Some store ->
  server (bearer store (post_config "/auth/login" v)) = HttpReply code body ->
  validateStatus code = true ->
  defined body = false ->
  useAuth.login server v s =
  set_mutation KLogin (errorMutation (TypeError "access_token"))
    (set_mutation KLogin pendingMutation s).
Proof.
  intros Hw Hr Hv Hd.
  change (useAuth.login server v s) with (step (ALogin server v) s).
  rewrite (step_browser (ALogin server v) KLogin s store server _ Hw eq_refl eq_refl).
  rewrite Hr. unfold outcome. rewrite Hv.
  unfold on_success, useAuth.loginMutation_onSuccess, member, bind.
  destruct body; try discriminate Hd; reflexivity.
Qed.



(** X9: the token a successful login receives is the one the next
    request carries: after a login answered 2xx with a non-empty string
    [access_token], [isAuthenticated()] is true and the request
    interceptor sets [Authorization: Bearer <access_token>] on every
    request, whatever token was stored before. *)
Theorem login_token_reaches_next_request :
  forall (server : Server) (credentials body : Js) (code : Z) (t : string)
         (store : gmap string string) (s : State) (config : Request),
    window s = Some store ->
    server (bearer store (post_config "/auth/login" credentials)) = HttpReply code body ->
    validateStatus code = true ->
    prop body "access_token" = JStr t ->
    t <> EmptyString ->
    useAuth.isAuthenticated (useAuth.login server credentials s) =
      (useAuth.login server credentials s, Normal true) /\
    exists config',
      request_interceptor config (useAuth.login server credentials s) =
        (useAuth.login server credentials s, Normal config') /\
      headers config' !! "Authorization" = Some ("Bearer " ++ t).
Proof.
  intros server v body code t store s config Hw Hr Hv Ht Hne.
  assert (Hd : defined body = true) by (destruct body; try reflexivity; discriminate Ht).
  rewrite (login_fulfilled server v body code store s Hw Hr Hv Hd), Ht.
  set (s' := set_mutation KLogin _ _).
  assert (Hw' : window s' = Some (<["auth_token" := t]> store)) by reflexivity.
  split.
  - apply isAuthenticated_true. exists t. split; [|exact Hne].
    unfold stored_token. rewrite Hw'. apply lookup_insert_eq.
  - exists (bearer (<["auth_token" := t]> store) config).
    split; [now apply request_interceptor_browser|].
    unfold bearer. rewrite lookup_insert_eq, (eqb_empty_false t Hne). simpl.
    apply lookup_insert_eq.
Qed.

Lemma login_token_reaches_next_request_witness :
  let s := useAuth.login (stub (token_reply "new")) credentials_example (logged_in "old") in
  exists config',
    request_interceptor (get_config "/clients" JUndefined) s = (s, Normal config') /\
    headers config' !! "Authorization" = Some "Bearer new".
Proof.
  destruct (login_token_reaches_next_request (stub (token_reply "new")) credentials_example
              (JObj [("access_token", JStr "new"); ("token_type", JStr "bearer")]) 200 "new"
              {[ "auth_token" := "old" ]} (logged_in "old") (get_config "/clients" JUndefined)
              eq_refl eq_refl eq_refl eq_refl) as (_ & H); [discriminate|exact H].
Defined.

(** X10: in a browser, a login that the remote API answers with a 2xx
    status and a [null] or missing body ends in error, on the
    [TypeError] its success hook throws at [data.access_token]: nothing
    is stored and no navigation is added. *)
Theorem login_without_body_fails :
  forall (server : Server) (credentials body : Js) (code : Z)
         (store : gmap string string) (s : State),
    window s = Some store ->
    server (bearer store (post_config "/auth/login" credentials)) = HttpReply code body ->
    validateStatus code = true ->
    defined body = false ->
    status (loginMutation (useAuth.login server credentials s)) = error /\
    prop (error_of (loginMutation (useAuth.login server credentials s))) "name" =
      JStr "TypeError" /\
    window (useAuth.login server credentials s) = window s /\
    navigation (useAuth.login server credentials s) = navigation s.
Proof.
  intros server v body code store s Hw Hr Hv Hd.
  rewrite (login_undefined_body server v body code store s Hw Hr Hv Hd). repeat split.
Qed.

Lemma login_without_body_fails_witness :
  let s := useAuth.login (stub (HttpReply 200 JNull)) credentials_example initial_state in
  status (loginMutation s) = error /\ window s = Some ∅ /\ navigation s = [].
Proof.
  destruct (login_without_body_fails (stub (HttpReply 200 JNull)) credentials_example JNull 200
              ∅ initial_state eq_refl eq_refl eq_refl eq_refl) as (Hs & _ & Hw & Hn).
  split; [exact Hs|]. split; [exact Hw|exact Hn].
Defined.

(** X11: in a browser, a login that the remote API answers with a 2xx
    status and a body without an [access_token] still succeeds: it
    stores the string [undefined] as the token, after which
    [isAuthenticated()] is true. *)
Theorem login_without_token_stores_undefined :
  forall (server : Server) (credentials body : Js) (code : Z)
         (store : gmap string string) (s : State),
    window s = Some store ->
    server (bearer store (post_config "/auth/login" credentials)) = HttpReply code body ->
    validateStatus code = true ->
    defined body = true ->
    prop body "access_token" = JUndefined ->
    status (loginMutation (useAuth.login server credentials s)) = success /\
    stored_token (useAuth.login server credentials s) = Some "undefined" /\
    useAuth.isAuthenticated (useAuth.login server credentials s) =
      (useAuth.login server credentials s, Normal true).
Proof.
  intros server v body code store s Hw Hr Hv Hd Ht.
  rewrite (login_fulfilled server v body code store s Hw Hr Hv Hd), Ht.
  set (s' := set_mutation KLogin _ _).
  assert (Hs' : stored_token s' = Some "undefined")
    by (unfold stored_token; simpl; apply lookup_insert_eq).
  split; [reflexivity|]. split; [exact Hs'|].
  apply isAuthenticated_true. exists "undefined". split; [exact Hs'|discriminate].
Qed.

Lemma login_without_token_stores_undefined_witness :
  let s := useAuth.login (stub (HttpReply 200 (JObj [("token", JStr "tok123")])))
             credentials_example initial_state in
  status (loginMutation s) = success /\
  stored_token s = Some "undefined" /\
  useAuth.isAuthenticated s = (s, Normal true).
Proof.
  apply (login_without_token_stores_undefined
           (stub (HttpReply 200 (JObj [("token", JStr "tok123")]))) credentials_example
           (JObj [("token", JStr "tok123")]) 200 ∅ initial_state
           eq_refl eq_refl eq_refl eq_refl eq_refl).
Defined.

(** ** The pages *)






(** X13: the password rule of [registerSchema] accepts exactly the
    strings of at least six code units whose first line holds a
    lowercase letter, an uppercase letter and a digit: what stands after
    a line terminator does not count. *)
Theorem registerSchema_password_rule :
  forall p : string,
    registerSchema_password p =
    (6 <=? String.length p)%nat &&
    (has lower (first_line p) && has upper (first_line p) && has digit (first_line p)).
Proof.
  intros p. unfold registerSchema_password. now rewrite password_regex_first_line.
Qed.

(** X14: a password that [registerSchema] accepts has all four marks of
    the checklist of the register page set. *)
Theorem accepted_password_has_all_marks :
  forall p : string,
    registerSchema_password p = true ->
    mark_length p = true /\ mark_lower p = true /\ mark_upper p = true /\ mark_digit p = true.
Proof.
  intros p H. unfold registerSchema_password in H. rewrite password_regex_first_line in H.
  apply andb_true_iff in H. destruct H as [Hlen H].
  apply andb_true_iff in H. destruct H as [H Hd].
  apply andb_true_iff in H. destruct H as [Hl Hu].
  unfold mark_length, mark_lower, mark_upper, mark_digit, test.
  rewrite !search_ahead_some.
  split; [exact Hlen|]. split; [|split]; now apply has_first_line.
Qed.

Lemma accepted_password_has_all_marks_witness :
  mark_length "Secret1" = true /\ mark_lower "Secret1" = true /\
  mark_upper "Secret1" = true /\ mark_digit "Secret1" = true.
Proof. apply (accepted_password_has_all_marks "Secret1"). reflexivity. Defined.

(** X15: on a password without a line terminator the schema and the
    checklist agree: [registerSchema] accepts the password exactly when
    all four marks are set. *)
Theorem single_line_password_marks_agree :
  forall p : string,
    single_line p = true ->
    registerSchema_password p =
    mark_length p && mark_lower p && mark_upper p && mark_digit p.
Proof.
  intros p Hp. unfold registerSchema_password. rewrite password_regex_first_line.
  rewrite (first_line_single p Hp).
  unfold mark_length, mark_lower, mark_upper, mark_digit, test.
  rewrite !search_ahead_some. now rewrite !andb_assoc.
Qed.

Lemma single_line_password_marks_agree_witness :
  registerSchema_password "secret1" =
  mark_length "secret1" && mark_lower "secret1" && mark_upper "secret1" && mark_digit "secret1".
Proof. apply (single_line_password_marks_agree "secret1"). reflexivity. Defined.

(** X16: over a list of clients none of which is [null] or [undefined],
    the statistics of the clients page are all defined and add up: the
    active and the inactive counts sum to the total. *)
Theorem statistics_add_up :
  forall items : list Js,
    forallb defined items = true ->
    exists a i,
      ClientsContent.active items = Normal a /\
      ClientsContent.inactive items = Normal i /\
      (a + i)%nat = ClientsContent.total items.
Proof.
  unfold ClientsContent.active, ClientsContent.inactive, ClientsContent.total.
  induction items as [|x rest IH]; simpl; intros H.
  - exists 0%nat, 0%nat. repeat split.
  - apply andb_true_iff in H. destruct H as [Hx Hrest].
    destruct (IH Hrest) as (a & i & -> & -> & Hsum).
    assert (Hread : read x "is_active" = Normal (prop x "is_active"))
      by (destruct x; try discriminate Hx; reflexivity).
    rewrite Hread. destruct (truthy (prop x "is_active")); simpl.
    + exists (S a), i. repeat split. lia.
    + exists a, (S i). repeat split. lia.
Qed.

Lemma statistics_add_up_witness :
  exists a i,
    ClientsContent.active [client_example 1 "ana" true; client_example 2 "bia" false] = Normal a /\
    ClientsContent.inactive [client_example 1 "ana" true; client_example 2 "bia" false] = Normal i /\
    (a + i)%nat = 2%nat.
Proof.
  apply (statistics_add_up [client_example 1 "ana" true; client_example 2 "bia" false]).
  reflexivity.
Defined.

(** X17: in a browser, a fetch of the clients that the remote API
    answers with a 2xx status succeeds with the body as its data and
    puts the body in the registry; it touches neither the storage nor
    the navigation.  The fetch the clients page runs on mount, without
    an argument, sends a request with an empty query. *)
Theorem clients_fetch_fills_registry :
  forall (server : Server) (v body : Js) (code : Z)
         (store : gmap string string) (s : State),
    window s = Some store ->
    server (bearer store (get_config "/clients" v)) = HttpReply code body ->
    validateStatus code = true ->
    clientsMutation (useAuth.clientsMutation_mutate server v s) = successMutation body /\
    clients (useAuth.clientsMutation_mutate server v s) = body /\
    window (useAuth.clientsMutation_mutate server v s) = window s /\
    navigation (useAuth.clientsMutation_mutate server v s) = navigation s /\
    query (bearer store (get_config "/clients" JUndefined)) = [] /\
    ClientsContent.fetch server s = useAuth.clientsMutation_mutate server JUndefined s.
Proof.
  intros server v body code store s Hw Hr Hv.
  change (useAuth.clientsMutation_mutate server v s) with (step (AClients server v) s).
  rewrite (step_browser (AClients server v) KClients s store server _ Hw eq_refl eq_refl).
  rewrite Hr. unfold outcome. rewrite Hv. simpl.
  repeat split. unfold bearer.
  destruct (store !! "auth_token") as [t|]; [|reflexivity].
  destruct (String.eqb t EmptyString); reflexivity.
Qed.

Lemma clients_fetch_fills_registry_witness :
  let P := JArr [client_example 1 "ana" true] in
  clients (ClientsContent.fetch (stub (HttpReply 200 P)) (logged_in "tok123")) = P.
Proof.
  destruct (clients_fetch_fills_registry
              (stub (HttpReply 200 (JArr [client_example 1 "ana" true]))) JUndefined
              (JArr [client_example 1 "ana" true]) 200
              {[ "auth_token" := "tok123" ]} (logged_in "tok123")
              eq_refl eq_refl eq_refl) as (_ & Hc & _).
  exact Hc.
Defined.
